(** * sublime-text-merlin: the editor commands and listeners of
      [sublime-text-merlin.py], embedded as pure functions.

    Every handler of the plugin is a function into a small monad [io] that
    records, in order, the calls made on the analyzer (the methods of
    [MerlinView]) and on the editor (the Sublime Text API), and that ends
    either with a value or with the Python exception that was raised.
    The objects of the plugin that carry state between two editor events
    ([Autocomplete], [MerlinBuffer], the command objects) are records that
    are passed in and returned. *)

From Stdlib Require Import ZArith String Ascii List Bool Lia DecimalString.
Import ListNotations.
Open Scope string_scope.
Open Scope list_scope.
Open Scope Z_scope.

(** String concatenation, Python's [+] on [str]; [++] is kept for lists. *)
Infix "+:+" := String.append (at level 60, right associativity).

(** ** Python data *)

(** The exception the modelled code can raise: the replies of the analyzer
    are typed, so that looking up a key or formatting a value cannot fail,
    and what is left is indexing a sequence. *)
Inductive exn : Type :=
| IndexError.

(** [seq[i]] on a Python sequence: a negative index counts from the end, an
    index outside [-len, len) raises [IndexError]. *)
Definition py_index {A : Type} (l : list A) (i : Z) : exn + A :=
  let n := Z.of_nat (List.length l) in
  let j := if i <? 0 then i + n else i in
  if (0 <=? j) && (j <? n)
  then match nth_error l (Z.to_nat j) with
       | Some x => inr x
       | None => inl IndexError
       end
  else inl IndexError.

(** ["%d" % z]. *)
Definition format_d (z : Z) : string := NilZero.string_of_int (Z.to_int z).

Definition tab : string := String (ascii_of_nat 9) "".
Definition newline : string := String (ascii_of_nat 10) "".

(** ** The regular expression of the completion prefix

    [re.findall(r"(([\w.]|->)+)", line)] scans [line] from the left.  At a
    position it repeats the group [([\w.]|->)] as long as it matches (one
    character of the class [[\w.]], tried first, or else the two characters
    [->]); since nothing follows the [+], the first failure of the group ends
    the match, which is kept when at least one repetition was made.  The scan
    resumes where the match ended, or one character further when there was
    none.  Each match is reported as the pair of its two groups: the whole
    match and the last repetition of the inner group. *)
Section Regex.

(** The character class [\w] of the [re] module. *)
Variable word_char : ascii -> bool.

Definition dot : ascii := "."%char.
Definition dash : ascii := "-"%char.
Definition gt : ascii := ">"%char.

(** [[\w.]] *)
Definition class_char (c : ascii) : bool := word_char c || Ascii.eqb c dot.

(** What [findall] reports for a match that is being read: [cur] is the
    text matched so far and [unit] its last repetition; nothing when no
    repetition was made. *)
Definition flush (cur unit : string) : list (string * string) :=
  match cur with
  | EmptyString => []
  | _ => [(cur, unit)]
  end.

(** The scan, with the match in progress as an accumulator. *)
Fixpoint scan (cur unit : string) (s : string) : list (string * string) :=
  match s with
  | EmptyString => flush cur unit
  | String c s' =>
      if class_char c then scan (cur +:+ String c "") (String c "") s'
      else if Ascii.eqb c dash then
        match s' with
        | String c' s'' =>
            if Ascii.eqb c' gt
            then scan (cur +:+ "->") "->" s''
            else flush cur unit ++ scan "" "" s'
        | EmptyString => flush cur unit ++ scan "" "" s'
        end
      else flush cur unit ++ scan "" "" s'
  end.

Definition findall (line : string) : list (string * string) := scan "" "" line.

(** [try: prefix = re.findall(...)[-1][0]  except IndexError: prefix = ""] *)
Definition expand_prefix (line : string) : string :=
  match py_index (findall line) (-1) with
  | inr m => fst m
  | inl _ => ""
  end.

(** *** The prefix in words *)

(** One repetition of the group: a word character, a dot, or the arrow. *)
Definition unit_str (u : string) : Prop :=
  (exists c, class_char c = true /\ u = String c "") \/ u = "->".

(** A token: one or more repetitions of the group. *)
Inductive token : string -> Prop :=
| token_unit u : unit_str u -> token u
| token_snoc t u : token t -> unit_str u -> token (t +:+ u).

(** A word character, a dot or the arrow occurs somewhere in the text. *)
Inductive occurs_unit : string -> Prop :=
| occurs_class c s : class_char c = true -> occurs_unit (String c s)
| occurs_arrow s : occurs_unit (String dash (String gt s))
| occurs_later c s : occurs_unit s -> occurs_unit (String c s).

(** The text ends with a word character, a dot or the arrow. *)
Inductive ends_with_unit : string -> Prop :=
| ends_class c : class_char c = true -> ends_with_unit (String c "")
| ends_arrow : ends_with_unit "->"
| ends_later c s : ends_with_unit s -> ends_with_unit (String c s).

(** [tok] is the last token of [line]: a token after which no word
    character, dot or arrow occurs any more, and which is not the
    continuation of one that ends just before it. *)
Definition last_token (line tok : string) : Prop :=
  exists pre post,
    line = pre +:+ tok +:+ post /\ token tok /\
    ~ occurs_unit post /\ ~ ends_with_unit pre.

Fixpoint last_char (s : string) : option ascii :=
  match s with
  | EmptyString => None
  | String c EmptyString => Some c
  | String _ s' => last_char s'
  end.

(** What the last match says about the text [bef +:+ cur +:+ s], where
    [found] is [scan cur unit s [-1]]: the match is a last token of the
    text, or there is none, nothing is being read and [s] has no word
    character, dot or arrow. *)
Definition scan_ok (bef cur s : string) (found : exn + (string * string)) : Prop :=
  match found with
  | inr (tok, _) =>
      exists pre post,
        bef +:+ cur +:+ s = pre +:+ tok +:+ post /\ token tok /\
        ~ occurs_unit post /\ ~ ends_with_unit pre
  | inl _ => cur = "" /\ ~ occurs_unit s
  end.

(** What [scan] is started with: [cur] is empty or a token, the text
    before it does not end with a repetition of the group, and a [-] just
    before an empty [cur] is not followed by [>]. *)
Definition started (bef cur s : string) : Prop :=
  (cur = "" \/ token cur) /\
  ~ ends_with_unit bef /\
  (cur = "" -> last_char bef = Some dash -> forall s', s <> String gt s').

Definition scan_spec_at (s : string) : Prop :=
  forall bef cur unit,
    started bef cur s ->
    scan_ok bef cur s (py_index (scan cur unit s) (-1)).

End Regex.

(** [\w] on 7-bit text: letters, digits and the underscore. *)
Definition ascii_word (c : ascii) : bool :=
  let n := nat_of_ascii c in
  ((65 <=? n) && (n <=? 90) || (97 <=? n) && (n <=? 122)
   || (48 <=? n) && (n <=? 57) || (n =? 95))%nat.

(** ** Data exchanged with the editor and with the analyzer *)

(** [sublime.Region(a, b)] *)
Record Region : Type := mkRegion { region_a : Z; region_b : Z }.

(** [Region.begin()] *)
Definition region_begin (r : Region) : Z := Z.min (region_a r) (region_b r).

(** The constants of the [sublime] module that the plugin names; [f | g] is
    modelled as the list of the flags that are set. *)
Inductive sublime_flag : Type :=
| INHIBIT_WORD_COMPLETIONS
| ENCODED_POSITION
| TRANSIENT
| MONOSPACE_FONT
| PERSISTENT
| DRAW_SOLID_UNDERLINE
| DRAW_NO_FILL
| DRAW_NO_OUTLINE.

(** What the plugin reads from a [sublime.View]: the primitives are functions
    of the buffer the view shows, [sel] is the current selection. *)
Record View : Type := mkView {
  rowcol : Z -> Z * Z;
  line : Z -> Region;
  substr : Region -> string;
  full_line : Region -> Region;
  sel : list Region
}.

(** A position of the analyzer, [{'line': int, 'col': int}]: lines count from
    one, columns from zero. *)
Record Position : Type := mkPosition { pos_line : Z; pos_col : Z }.

(** An entry of the reply to [complete_cursor]; the plugin reads the keys
    ['name'] and ['desc']. *)
Record CompletionEntry : Type := mkEntry { entry_name : string; entry_desc : string }.

(** An item of the reply to [type_enclosing]:
    [{'type': string; 'tail': "no"|"position"|"call"; 'start', 'end': position}]. *)
Record TypeEnclosingItem : Type := mkItem {
  item_type : string;
  item_tail : string;
  item_start : Position;
  item_end : Position
}.

(** The reply to [locate]: a dictionary with the key ['pos'] and possibly the
    key ['file'], or a value that is not a dictionary, the message. *)
Inductive LocateResult : Type :=
| LocateDict (pos : Position) (file : option string)
| LocateMessage (msg : string).

(** An entry of the reply to [report_errors]; the keys ['start'] and ['end']
    may be absent, ['message'] is read without a test. *)
Record Diagnostic : Type := mkDiagnostic {
  diag_start : option Position;
  diag_end : option Position;
  diag_message : string
}.

(** ** Calls on the analyzer and on the editor *)

(** The methods of [MerlinView] with the arguments of the call; a keyword
    argument that the call site does not pass is [None]. *)
Inductive merlin_call : Type :=
| Sync
| FindList
| FindUse (package : string)
| ListBuildPath
| RemoveBuildPath (directory : string)
| ListSourcePath
| RemoveSourcePath (directory : string)
| ExtensionList (state : string)
| ExtensionEnable (names : list string)
| ExtensionDisable (names : list string)
| TypeEnclosing (line col : Z)
| Locate (line col : Z) (kind ident : option string)
| WhichWithExt (extensions : list string)
| WhichPath (names : list string)
| CompleteCursor (prefix : string) (line col : Z)
| ReportErrors.

(** The calls on the Sublime Text API (and on [mdpopups]) that change what
    the editor shows. *)
Inductive editor_call : Type :=
| ShowQuickPanel (items : list string)
| ShowInputPanel (caption initial : string)
| ShowPopup (content : string) (location max_width max_height : Z) (allow_code_wrap : bool)
| ShowPopupMenu (items : list string) (flags : list sublime_flag)
| SelClear
| SelAdd (r : Region)
| ShowAtCenter (point : Z)
| OpenFile (name : string) (flags : list sublime_flag)
| MessageDialog (msg : string)
| RunCommand (name : string)
| SetTimeoutShow (delay : Z)
| EraseRegions (key : string)
| AddRegions (key : string) (regions : list Region) (scope icon : string) (flags : list sublime_flag).

Inductive call : Type :=
| Merlin (c : merlin_call)
| Editor (c : editor_call).

(** The analyzer as the plugin sees it: what each query answers. *)
Record MerlinView : Type := mkMerlinView {
  find_list_reply : list string;
  list_build_path_reply : list string;
  list_source_path_reply : list string;
  extension_list_reply : string -> list string;
  type_enclosing_reply : Z -> Z -> list TypeEnclosingItem;
  locate_reply : Z -> Z -> option string -> option string -> LocateResult;
  which_with_ext_reply : list string -> list string;
  which_path_reply : list string -> string;
  complete_cursor_reply : string -> Z -> Z -> list CompletionEntry;
  report_errors_reply : list Diagnostic
}.

(** What the module takes from outside: the character class [\w] of [re]
    ([word]), the helpers [merlin_pos] and [clean_whitespace] of
    [merlin.helpers] and [get_language_from_view] of [mdpopups], whose code
    is not part of [sublime-text-merlin.py], and the path that
    [gutter_icon_path] finds on the disk. *)
Record Helpers : Type := mkHelpers {
  word : ascii -> bool;
  merlin_pos : View -> Position -> Z;
  clean_whitespace : string -> string;
  get_language_from_view : View -> string;
  gutter_icon : string
}.

(** ** The monad of the handlers: the calls made, then a value or an exception *)

Definition io (A : Type) : Type := (list call * (exn + A))%type.

Definition ret {A : Type} (x : A) : io A := ([], inr x).
Definition bind {A B : Type} (m : io A) (k : A -> io B) : io B :=
  match m with
  | (t, inl e) => (t, inl e)
  | (t, inr x) => let (t', r) := k x in (t ++ t', r)
  end.
Definition lift {A : Type} (r : exn + A) : io A := ([], r).
Definition merlin_do (c : merlin_call) : io unit := ([Merlin c], inr tt).
Definition editor_do (c : editor_call) : io unit := ([Editor c], inr tt).

Notation "x <- m ;; k" := (bind m (fun x => k))
  (at level 61, m at next level, right associativity).
Notation "m ;; k" := (bind m (fun _ => k))
  (at level 61, right associativity).

Definition trace {A : Type} (m : io A) : list call := fst m.
Definition outcome {A : Type} (m : io A) : exn + A := snd m.

(** ** The commands that open a choice menu

    [merlin_view(view)] wraps the running analyzer process and the view in a
    [MerlinView]; the handlers below receive that object.  A command object
    keeps, between [run] and [on_done], the analyzer and the list it put in
    the menu; [on_done] assigns no attribute, so it returns no new object. *)

Module MerlinLoadPackage.
Record t : Type := mk { merlin : MerlinView; modules : list string }.

Definition run (m : MerlinView) : io t :=
  merlin_do FindList ;;
  let modules := find_list_reply m in
  editor_do (ShowQuickPanel modules) ;;
  ret (mk m modules).

Definition on_done (self : t) (index : Z) : io unit :=
  if negb (index =? -1) then
    package <- lift (py_index (modules self) index) ;;
    merlin_do (FindUse package)
  else ret tt.
End MerlinLoadPackage.

Module MerlinRemoveBuildPath.
Record t : Type := mk { merlin : MerlinView; directories : list string }.

Definition run (m : MerlinView) : io t :=
  merlin_do ListBuildPath ;;
  let directories := list_build_path_reply m in
  editor_do (ShowQuickPanel directories) ;;
  ret (mk m directories).

Definition on_done (self : t) (index : Z) : io unit :=
  if negb (index =? -1) then
    directory <- lift (py_index (directories self) index) ;;
    merlin_do (RemoveBuildPath directory)
  else ret tt.
End MerlinRemoveBuildPath.

Module MerlinRemoveSourcePath.
Record t : Type := mk { merlin : MerlinView; directories : list string }.

Definition run (m : MerlinView) : io t :=
  merlin_do ListSourcePath ;;
  let directories := list_source_path_reply m in
  editor_do (ShowQuickPanel directories) ;;
  ret (mk m directories).

Definition on_done (self : t) (index : Z) : io unit :=
  if negb (index =? -1) then
    directory <- lift (py_index (directories self) index) ;;
    merlin_do (RemoveSourcePath directory)
  else ret tt.
End MerlinRemoveSourcePath.

Module MerlinEnableExtension.
Record t : Type := mk { merlin : MerlinView; extensions : list string }.

Definition run (m : MerlinView) : io t :=
  merlin_do (ExtensionList "disabled") ;;
  let extensions := extension_list_reply m "disabled" in
  editor_do (ShowQuickPanel extensions) ;;
  ret (mk m extensions).

Definition on_done (self : t) (index : Z) : io unit :=
  if negb (index =? -1) then
    extension <- lift (py_index (extensions self) index) ;;
    merlin_do (ExtensionEnable [extension])
  else ret tt.
End MerlinEnableExtension.

Module MerlinDisableExtension.
Record t : Type := mk { merlin : MerlinView; extensions : list string }.

Definition run (m : MerlinView) : io t :=
  merlin_do (ExtensionList "enabled") ;;
  let extensions := extension_list_reply m "enabled" in
  editor_do (ShowQuickPanel extensions) ;;
  ret (mk m extensions).

Definition on_done (self : t) (index : Z) : io unit :=
  if negb (index =? -1) then
    extension <- lift (py_index (extensions self) index) ;;
    merlin_do (ExtensionDisable [extension])
  else ret tt.
End MerlinDisableExtension.

(** [MerlinWhich] and its two subclasses, which differ by [extensions]. *)
Module MerlinWhich.
Inductive subclass : Type := Abstract | MerlinFindMl | MerlinFindMli.

Record t : Type := mk { cls : subclass; merlin : MerlinView; files : list string }.

Definition extensions (c : subclass) : list string :=
  match c with
  | Abstract => []
  | MerlinFindMl => [".ml"; ".mli"; ".mf"; ".mfi"]
  | MerlinFindMli => [".mli"; ".ml"; ".mfi"; ".mf"]
  end.

Definition run (c : subclass) (m : MerlinView) : io t :=
  merlin_do (WhichWithExt (extensions c)) ;;
  let files := which_with_ext_reply m (extensions c) in
  editor_do (ShowQuickPanel files) ;;
  ret (mk c m files).

Definition on_done (self : t) (index : Z) : io unit :=
  if negb (index =? -1) then
    module_name <- lift (py_index (files self) index) ;;
    let modules := map (fun ext => module_name +:+ ext) (extensions (cls self)) in
    merlin_do (WhichPath modules) ;;
    editor_do (OpenFile (which_path_reply (merlin self) modules) [])
  else ret tt.
End MerlinWhich.

(** ** Type information around the cursor *)

Module MerlinTypeEnclosing.
Record t : Type := mk {
  enclosing : list TypeEnclosingItem;
  view : View;
  language : string
}.

(** [MerlinTypeEnclosing(view, pos)]; [pos] is [None] when it is left out. *)
Definition __init__ (h : Helpers) (m : MerlinView) (view : View) (pos : option Z) : io t :=
  merlin_do Sync ;;
  pos <- match pos with
         | None => r <- lift (py_index (sel view) 0) ;; ret (region_begin r)
         | Some p => ret p
         end ;;
  let (line, col) := rowcol view pos in
  merlin_do (TypeEnclosing (line + 1) col) ;;
  ret (mk (type_enclosing_reply m (line + 1) col) view (get_language_from_view h view)).

Definition _item_region (h : Helpers) (self : t) (item : TypeEnclosingItem) : Region :=
  let start := merlin_pos h (view self) (item_start item) in
  let end_ := merlin_pos h (view self) (item_end item) in
  mkRegion start end_.

Definition _item_format (self : t) (item : TypeEnclosingItem) : string :=
  let text := item_type item in
  let text := if String.eqb (item_tail item) "position"
              then text +:+ " (*tail-position*)" else text in
  let text := if String.eqb (item_tail item) "call"
              then text +:+ " (*tail-call*)" else text in
  "```" +:+ language self +:+ newline +:+ text +:+ newline +:+ "```".

Definition _items (self : t) : list string :=
  map (_item_format self) (enclosing self).

Definition _first (self : t) : exn + string :=
  match py_index (enclosing self) 0 with
  | inr item => inr (_item_format self item)
  | inl e => inl e
  end.

(** [location=pos if pos else -1]: [None] and [0] both give [-1]. *)
Definition popup_location (pos : option Z) : Z :=
  match pos with
  | Some p => if p =? 0 then -1 else p
  | None => -1
  end.

Definition show_panel (self : t) (pos : option Z) : io unit :=
  content <- lift (_first self) ;;
  editor_do (ShowPopup content (popup_location pos) 800 600 true).

Definition show_menu (self : t) : io unit :=
  editor_do (ShowPopupMenu (_items self) [MONOSPACE_FONT]).

Definition on_done (h : Helpers) (self : t) (index : Z) : io unit :=
  if index >? -1 then
    editor_do SelClear ;;
    item <- lift (py_index (enclosing self) index) ;;
    editor_do (SelAdd (_item_region h self item))
  else ret tt.
End MerlinTypeEnclosing.

Module MerlinTypeCommand.
Definition run (h : Helpers) (m : MerlinView) (view : View) : io unit :=
  enclosing <- MerlinTypeEnclosing.__init__ h m view None ;;
  MerlinTypeEnclosing.show_panel enclosing None.
End MerlinTypeCommand.

Inductive hover_zone : Type := HOVER_TEXT | HOVER_GUTTER | HOVER_MARGIN.

(** [on_hover] is decorated with [only_ocaml]; the definition is the
    decorated body. *)
Module MerlinTypeOnHover.
Definition on_hover (h : Helpers) (m : MerlinView) (view : View) (point : Z)
    (zone : hover_zone) : io unit :=
  match zone with
  | HOVER_TEXT =>
      enclosing <- MerlinTypeEnclosing.__init__ h m view (Some point) ;;
      MerlinTypeEnclosing.show_panel enclosing (Some point)
  | _ => ret tt
  end.
End MerlinTypeOnHover.

Module MerlinTypeMenu.
Definition run (h : Helpers) (m : MerlinView) (view : View) : io MerlinTypeEnclosing.t :=
  enclosing <- MerlinTypeEnclosing.__init__ h m view None ;;
  MerlinTypeEnclosing.show_menu enclosing ;;
  ret enclosing.
End MerlinTypeMenu.

(** ** Locating a definition *)

(** [window] is given by its active view. *)
Definition merlin_locate_result (h : Helpers) (result : LocateResult) (window : View) : io unit :=
  match result with
  | LocateDict pos file =>
      match file with
      | Some f =>
          let filename :=
            f +:+ ":" +:+ format_d (pos_line pos) +:+ ":" +:+ format_d (pos_col pos + 1) in
          editor_do (OpenFile filename [ENCODED_POSITION; TRANSIENT])
      | None =>
          let view := window in
          editor_do SelClear ;;
          let pos := merlin_pos h view pos in
          editor_do (SelAdd (mkRegion pos pos)) ;;
          editor_do (ShowAtCenter pos)
      end
  | LocateMessage msg => editor_do (MessageDialog msg)
  end.

(** The commands that locate the definition under the cursor:
    [MerlinLocateMli] ([Base]) and its subclasses.  The module defines
    [class MerlinLocateMf] twice; the name is bound to the second
    definition ([Mf]), the first one is [Mf_shadowed]. *)
Module MerlinLocateMli.
Inductive subclass : Type := Base | MerlinLocateMl | Mf_shadowed | MerlinLocateMf.

Definition kind (self : subclass) : string :=
  match self with
  | Base => "mli"
  | MerlinLocateMl => "ml"
  | Mf_shadowed => "mf"
  | MerlinLocateMf => "mfi"
  end.

Definition run (h : Helpers) (self : subclass) (m : MerlinView) (window : View) : io unit :=
  let view := window in
  merlin_do Sync ;;
  pos <- lift (py_index (sel view) 0) ;;
  let (line, col) := rowcol view (region_begin pos) in
  merlin_do (Locate (line + 1) col (Some (kind self)) None) ;;
  merlin_locate_result h (locate_reply m (line + 1) col (Some (kind self)) None) window.
End MerlinLocateMli.

(** The commands that locate a definition by its name: [MerlinLocateNameMli]
    ([Base]) and its subclasses; [class MerlinLocateNameMf] is defined twice
    as well. *)
Module MerlinLocateNameMli.
Inductive subclass : Type := Base | MerlinLocateNameMl | NameMf_shadowed | MerlinLocateNameMf.

Definition run : io unit := editor_do (ShowInputPanel "Enter name" "").

Definition kind (self : subclass) : string :=
  match self with
  | Base => "mli"
  | MerlinLocateNameMl => "ml"
  | NameMf_shadowed => "mfi"
  | MerlinLocateNameMf => "mf"
  end.

Definition on_done (h : Helpers) (self : subclass) (m : MerlinView) (window : View)
    (name : string) : io unit :=
  let view := window in
  merlin_do Sync ;;
  pos <- lift (py_index (sel view) 0) ;;
  let (line, col) := rowcol view (region_begin pos) in
  merlin_do (Locate (line + 1) col None (Some name)) ;;
  merlin_locate_result h (locate_reply m (line + 1) col None (Some name)) window.
End MerlinLocateNameMli.

(** ** Autocompletion

    The listener methods are decorated with [only_ocaml] (from
    [merlin.helpers]); the definitions are the decorated bodies, that is the
    handlers as they run on a view that shows OCaml code. *)

Module Autocomplete.
(** The attributes of the listener.  [completions] and [cplns_ready] start
    from the class attributes [[]] and [None]; [cplns_ready] is [None],
    [False] or [True]. *)
Record t : Type := mk {
  completions : list (string * string);
  cplns_ready : option bool;
  cplns : list (string * string)
}.

Definition initial : t := mk [] None [].

(** What the handler returns: a list of completions, or a pair of a list
    and flags. *)
Inductive result : Type :=
| Completions (l : list (string * string))
| CompletionsWithFlags (l : list (string * string)) (flags : list sublime_flag).

Definition default_return : result := CompletionsWithFlags [] [INHIBIT_WORD_COMPLETIONS].

Definition show_completions (self : t) (completions : list (string * string)) : io t :=
  let self := mk (Autocomplete.completions self) (Some true) (cplns self) in
  match completions with
  | _ :: _ =>
      let self := mk completions (cplns_ready self) (cplns self) in
      editor_do (RunCommand "hide_auto_complete") ;;
      editor_do (SetTimeoutShow 0) ;;
      ret self
  | [] => ret self
  end.

Definition show : io unit := editor_do (RunCommand "auto_complete").

(** [name + '\t' + desc, name] for each entry, in order. *)
Definition format_entries (entries : list CompletionEntry) : list (string * string) :=
  map (fun r => (entry_name r +:+ tab +:+ entry_desc r, entry_name r)) entries.

Definition on_query_completions (h : Helpers) (self : t) (m : MerlinView) (view : View)
    (prefix : string) (locations : list Z) : io (t * result) :=
  l <- lift (py_index locations 0) ;;
  let line := substr view (mkRegion (region_a (line view l)) l) in
  let prefix := expand_prefix (word h) line in
  merlin_do Sync ;;
  match cplns_ready self with
  | Some true =>
      let self := mk (completions self) None (cplns self) in
      match completions self with
      | _ :: _ =>
          let cplns := completions self in
          let self := mk [] (cplns_ready self) (Autocomplete.cplns self) in
          ret (self, Completions cplns)
      | [] => ret (self, default_return)
      end
  | None =>
      let self := mk (completions self) (Some false) (cplns self) in
      loc0 <- lift (py_index locations 0) ;;
      let (line, col) := rowcol view loc0 in
      merlin_do (CompleteCursor prefix (line + 1) col) ;;
      let entries := complete_cursor_reply m prefix (line + 1) col in
      let self := mk (completions self) (cplns_ready self) (format_entries entries) in
      self <- show_completions self (Autocomplete.cplns self) ;;
      ret (self, default_return)
  | Some false => ret (self, default_return)
  end.
End Autocomplete.

(** ** Error diagnostics *)

Module MerlinBuffer.
(** [error_messages] starts from the class attribute [[]]. *)
Record t : Type := mk { error_messages : list (Region * string) }.

Definition initial : t := mk [].

(** One turn of the loop of [show_errors] on the two lists it fills. *)
Definition show_errors_step (h : Helpers) (view : View)
    (acc : list (Region * string) * list Region) (e : Diagnostic)
    : list (Region * string) * list Region :=
  let (error_messages, underlines) := acc in
  match diag_start e, diag_end e with
  | Some pos_start, Some pos_stop =>
      let pnt_start := merlin_pos h view pos_start in
      let pnt_stop := merlin_pos h view pos_stop in
      let r := mkRegion pnt_start pnt_stop in
      let line_r := full_line view r in
      let line_r := mkRegion (region_a line_r - 1) (region_b line_r) in
      let underlines := underlines ++ [r] in
      let message := clean_whitespace h (diag_message e) in
      (error_messages ++ [(line_r, message)], underlines)
  | _, _ => (error_messages, underlines)
  end.

Definition show_errors (h : Helpers) (self : t) (m : MerlinView) (view : View) : io t :=
  editor_do (EraseRegions "ocaml-underlines-errors") ;;
  merlin_do ReportErrors ;;
  let errors := report_errors_reply m in
  let (error_messages, underlines) :=
    fold_left (show_errors_step h view) errors ([], []) in
  let self := mk error_messages in
  let flag := [PERSISTENT; DRAW_SOLID_UNDERLINE; DRAW_NO_FILL; DRAW_NO_OUTLINE] in
  editor_do (AddRegions "ocaml-underlines-errors" underlines "invalid" (gutter_icon h) flag) ;;
  ret self.
End MerlinBuffer.

(** ** The analyzer's copy of the buffer *)

(** The buffer the editor shows and the copy the analyzer works on. *)
Record world : Type := mkWorld { buffer : string; mirror : string }.

(** Modelled from the spec: the body of [MerlinView.sync] is in
    [merlin.process], which is not part of [sublime-text-merlin.py]; the spec
    says that sync pushes the full current buffer to the analyzer.  No other
    call of a handler changes the buffer or the copy. *)
Definition run_call (w : world) (c : call) : world :=
  match c with
  | Merlin Sync => mkWorld (buffer w) (buffer w)
  | _ => w
  end.

(** The queries whose answer depends on a position in the buffer. *)
Definition position_query (c : call) : bool :=
  match c with
  | Merlin (TypeEnclosing _ _) | Merlin (Locate _ _ _ _) | Merlin (CompleteCursor _ _ _) => true
  | _ => false
  end.

(** Along a trace run from [w], every position-dependent query finds the
    analyzer's copy equal to the buffer. *)
Fixpoint queries_see_buffer (w : world) (t : list call) : Prop :=
  match t with
  | [] => True
  | c :: t' =>
      (position_query c = true -> mirror w = buffer w) /\
      queries_see_buffer (run_call w c) t'
  end.

(** In a trace, every position-dependent query comes after a sync. *)
Definition sync_before_queries (t : list call) : Prop :=
  forall t1 c t2, t = t1 ++ c :: t2 -> position_query c = true -> In (Merlin Sync) t1.

(** The text that [on_query_completions] reads: from the start of the line of [l]
    up to [l]. *)
Definition line_before (view : View) (l : Z) : string :=
  substr view (mkRegion (region_a (line view l)) l).

(** ** Reading a trace *)

Definition merlin_calls (t : list call) : list merlin_call :=
  flat_map (fun c => match c with Merlin c => [c] | Editor _ => [] end) t.

Definition editor_calls (t : list call) : list editor_call :=
  flat_map (fun c => match c with Editor c => [c] | Merlin _ => [] end) t.

(** The three ways in which a locate result is shown: a file is opened
    under an encoded name, the caret of the view is put at a point, a
    message is displayed. *)
Inductive locate_action : Type :=
| OpensFile (name : string)
| MovesCaret (point : Z)
| ShowsMessage (msg : string).

Definition locate_actions (t : list call) : list locate_action :=
  flat_map (fun c => match c with
                     | Editor (OpenFile name _) => [OpensFile name]
                     | Editor (SelAdd r) => [MovesCaret (region_a r)]
                     | Editor (MessageDialog msg) => [ShowsMessage msg]
                     | _ => []
                     end) t.

(** What one diagnostic adds to the underlines and to the stored messages:
    a region and a message when it has a start and an end, nothing else. *)
Definition contribution (h : Helpers) (view : View) (e : Diagnostic)
    : option (Region * (Region * string)) :=
  match diag_start e, diag_end e with
  | Some pos_start, Some pos_stop =>
      let r := mkRegion (merlin_pos h view pos_start) (merlin_pos h view pos_stop) in
      let line_r := full_line view r in
      Some (r, (mkRegion (region_a line_r - 1) (region_b line_r),
                clean_whitespace h (diag_message e)))
  | _, _ => None
  end.

Definition contributions (h : Helpers) (view : View) (errors : list Diagnostic)
    : list (Region * (Region * string)) :=
  flat_map (fun e => match contribution h view e with Some c => [c] | None => [] end) errors.

(** The rule of the spec for stale completions, on one handler call: when
    the call hands a list of completions to the editor, the list is the
    answer to a completion query that this very call has issued, so that the
    generation of the answer is the generation of the call. *)
Definition applies_own_generation (h : Helpers) (m : MerlinView) (self : Autocomplete.t)
    (view : View) (prefix : string) (locations : list Z) : Prop :=
  forall self' applied,
    outcome (Autocomplete.on_query_completions h self m view prefix locations)
      = inr (self', Autocomplete.Completions applied) ->
    exists p line col,
      In (Merlin (CompleteCursor p line col))
         (trace (Autocomplete.on_query_completions h self m view prefix locations)) /\
      applied = Autocomplete.format_entries (complete_cursor_reply m p line col).

(** ** The analyzer process *)

(** The module variable [running_process] and the number of
    [MerlinProcess] objects built so far; an object is told apart by the
    rank at which it was built. *)
Record globals : Type := mkGlobals {
  running_process : option nat;
  processes_built : nat
}.

Definition initial_globals : globals := mkGlobals None 0.

Definition merlin_process (g : globals) : globals * nat :=
  match running_process g with
  | None =>
      let p := processes_built g in
      (mkGlobals (Some p) (S p), p)
  | Some p => (g, p)
  end.

(** [MerlinView(merlin_process(), view)], given by the process and the view
    it wraps. *)
Definition merlin_view (g : globals) (view : View) : globals * (nat * View) :=
  let (g, p) := merlin_process g in
  (g, (p, view)).

(** [merlin_view] called for each view of a list, in order: the last state
    and the processes of the objects built. *)
Fixpoint merlin_views (g : globals) (views : list View) : globals * list nat :=
  match views with
  | [] => (g, [])
  | view :: views' =>
      let (g1, mv) := merlin_view g view in
      let (g2, ps) := merlin_views g1 views' in
      (g2, fst mv :: ps)
  end.

(** ** The listener across several events *)

(** What one completion event brings: the view, the prefix and the
    locations. *)
Record completion_event : Type := mkEvent {
  ev_view : View;
  ev_prefix : string;
  ev_locations : list Z
}.

(** The listener after one event: the attributes the handler leaves, or the
    ones it found when it raised before assigning any. *)
Definition after_event (h : Helpers) (m : MerlinView) (self : Autocomplete.t)
    (e : completion_event) : Autocomplete.t :=
  match outcome (Autocomplete.on_query_completions h self m (ev_view e) (ev_prefix e)
                   (ev_locations e)) with
  | inr (self', _) => self'
  | inl _ => self
  end.

Definition after_events (h : Helpers) (m : MerlinView) (self : Autocomplete.t)
    (events : list completion_event) : Autocomplete.t :=
  fold_left (after_event h m) events self.


(** ** The error panel *)

(** The exceptions of this part: indexing a sequence, and reading an
    attribute of [None]. *)
Inductive panel_exn : Type :=
| PanelIndexError
| PanelAttributeError.

(** The calls on the panel view and on a window; views and windows are
    given by their identifiers. *)
Inductive panel_call : Type :=
| GetOutputPanel (window : Z) (name : string)
| SetFontSize (view : Z) (size : Z)
| SetSyntax (view : Z) (path : string)
| SetReadOnly (view : Z) (flag : bool)
| SetScratch (view : Z) (flag : bool)
| FlushCommand (view : Z) (data : string)
| ShowPanel (window : Z) (panel : string)
| HidePanel (window : Z) (panel : string).

(** What the editor answers: the active window, the window of a view
    ([view.window()], possibly [None]), the view of an output panel, whether
    a window object counts as true, and [Region.intersects]. *)
Record Sublime : Type := mkSublime {
  active_window : Z;
  view_window : Z -> option Z;
  get_output_panel : Z -> string -> Z;
  window_true : Z -> bool;
  intersects : Region -> Region -> bool
}.

Definition pio (A : Type) : Type := (list panel_call * (panel_exn + A))%type.

Definition pret {A : Type} (x : A) : pio A := ([], inr x).
Definition pbind {A B : Type} (m : pio A) (k : A -> pio B) : pio B :=
  match m with
  | (t, inl e) => (t, inl e)
  | (t, inr x) => let (t', r) := k x in (t ++ t', r)
  end.
Definition panel_do (c : panel_call) : pio unit := ([c], inr tt).

Module MerlinErrorPanel.
Record t : Type := mk { view : option Z; data : string }.

(** [MerlinErrorPanel()] *)
Definition __init__ : t := mk None "".

(** [window] is [None] when the argument is left out. *)
Definition is_visible (ed : Sublime) (self : t) (window : option Z) : bool :=
  let ret :=
    match view self with
    | Some v => match view_window ed v with Some _ => true | None => false end
    | None => false
    end in
  let window_is_true :=
    match window with Some w => window_true ed w | None => false end in
  if ret && window_is_true then
    match view self, window with
    | Some v, Some w =>
        match view_window ed v with
        | Some vw => vw =? w
        | None => ret
        end
    | _, _ => ret
    end
  else ret.

Definition flush (self : t) : pio unit :=
  match view self with
  | Some v =>
      pbind (panel_do (SetReadOnly v false)) (fun _ =>
      pbind (panel_do (SetScratch v true)) (fun _ =>
      pbind (panel_do (FlushCommand v (data self))) (fun _ =>
      panel_do (SetReadOnly v true))))
  | None => ([], inl PanelAttributeError)
  end.

Definition set_data (ed : Sublime) (self : t) (data : string) : pio t :=
  let self := mk (view self) data in
  if is_visible ed self None
  then pbind (flush self) (fun _ => pret self)
  else pret self.

Definition open (ed : Sublime) (self : t) (window : option Z) : pio t :=
  let window := match window with Some w => w | None => active_window ed end in
  pbind
    (if negb (is_visible ed self (Some window)) then
       let v := get_output_panel ed window "merlin" in
       pbind (panel_do (GetOutputPanel window "merlin")) (fun _ =>
       let self := mk (Some v) (data self) in
       pbind (panel_do (SetFontSize v 10)) (fun _ =>
       pbind (panel_do (SetSyntax v "Packages/Merlin/merlin-errors.sublime-syntax")) (fun _ =>
       pret self)))
     else pret self)
    (fun self =>
       pbind (flush self) (fun _ =>
       pbind (panel_do (ShowPanel window "output.merlin")) (fun _ =>
       pret self))).

Definition close (ed : Sublime) (self : t) : pio t :=
  pbind (panel_do (HidePanel (active_window ed) "output.merlin")) (fun _ => pret self).
End MerlinErrorPanel.

(** The other methods of the listener [MerlinBuffer]; [merlin_error_panel]
    is the one panel of the module, passed in and returned. *)
Module MerlinBufferPanel.
(** [__get_lineno] *)
Definition get_lineno (view : View) (pos : Z) : Z := fst (rowcol view pos).

(** The loop of [display_in_error_panel] on the stored messages. *)
Fixpoint display_loop (ed : Sublime) (view : View) (caret_region : Region)
    (messages : list (Region * string)) (panel : MerlinErrorPanel.t)
    : pio MerlinErrorPanel.t :=
  match messages with
  | [] => pret panel
  | (message_region, message_text) :: rest =>
      if intersects ed message_region caret_region then
        let message :=
          format_d (get_lineno view (region_begin message_region))
          +:+ ": " +:+ message_text in
        pbind (MerlinErrorPanel.open ed panel None) (fun panel =>
        MerlinErrorPanel.set_data ed panel message)
      else
        pbind (MerlinErrorPanel.close ed panel) (fun panel =>
        display_loop ed view caret_region rest panel)
  end.

Definition display_in_error_panel (ed : Sublime) (self : MerlinBuffer.t)
    (panel : MerlinErrorPanel.t) (view : View) : pio MerlinErrorPanel.t :=
  match py_index (sel view) 0 with
  | inr caret_region =>
      display_loop ed view caret_region (MerlinBuffer.error_messages self) panel
  | inl _ => ([], inl PanelIndexError)
  end.

(** [on_post_save]: the calls of the sync and of [show_errors], the listener
    they leave, and what the display does next. *)
Definition on_post_save (h : Helpers) (ed : Sublime) (self : MerlinBuffer.t)
    (panel : MerlinErrorPanel.t) (m : MerlinView) (view : View)
    : list call * (MerlinBuffer.t * pio MerlinErrorPanel.t) :=
  let shown := (merlin_do Sync ;; MerlinBuffer.show_errors h self m view) in
  match outcome shown with
  | inr self' => (trace shown, (self', display_in_error_panel ed self' panel view))
  | inl _ => (trace shown, (self, ([], inl PanelIndexError)))
  end.

Definition on_modified : io unit := editor_do (EraseRegions "ocaml-underlines-errors").

Definition on_selection_modified (ed : Sublime) (self : MerlinBuffer.t)
    (panel : MerlinErrorPanel.t) (view : View) : pio MerlinErrorPanel.t :=
  display_in_error_panel ed self panel view.
End MerlinBufferPanel.

(** ** The note on tail calls *)

(** What the popup adds after the type of an item, by its ['tail'] field. *)
Definition tail_note (tail : string) : string :=
  if String.eqb tail "position" then " (*tail-position*)"
  else if String.eqb tail "call" then " (*tail-call*)"
  else "".

(** Where the popup of a hovered point is put. *)
Definition hover_location (point : Z) : Z := if point =? 0 then -1 else point.

(** ** Reading the diagnostics and the calls on the panel *)

(** The diagnostic has both a start and an end. *)
Definition has_span (e : Diagnostic) : bool :=
  match diag_start e, diag_end e with
  | Some _, Some _ => true
  | _, _ => false
  end.

(** The calls by which the text [data] is put into the panel view [v]:
    the view is made writable, marked as scratch, filled, and made
    read-only again. *)
Definition flush_block (v : Z) (data : string) : list panel_call :=
  [SetReadOnly v false; SetScratch v true; FlushCommand v data; SetReadOnly v true].

(** The calls by which a new panel view [v] is taken from the window [w]. *)
Definition new_panel_block (w v : Z) : list panel_call :=
  [GetOutputPanel w "merlin"; SetFontSize v 10;
   SetSyntax v "Packages/Merlin/merlin-errors.sublime-syntax"].

(** ** A small concrete editor and analyzer, for the examples

    The view shows one text; positions are offsets into it. *)
Module Demo.
Definition nl : ascii := ascii_of_nat 10.

(** Row and column of the offset [n] of [s], counted from [(row, col)]. *)
Fixpoint rowcol_from (s : string) (n : nat) (row col : Z) : Z * Z :=
  match n, s with
  | S n', String c s' =>
      if Ascii.eqb c nl then rowcol_from s' n' (row + 1) 0
      else rowcol_from s' n' row (col + 1)
  | _, _ => (row, col)
  end.

(** Number of characters of [s] before its first newline. *)
Fixpoint line_length (s : string) : nat :=
  match s with
  | String c s' => if Ascii.eqb c nl then O else S (line_length s')
  | EmptyString => O
  end.

Definition drop (n : nat) (s : string) : string :=
  String.substring n (String.length s - n) s.

Definition line_of (text : string) (l : Z) : Region :=
  let start := l - snd (rowcol_from text (Z.to_nat l) 0 0) in
  mkRegion start (start + Z.of_nat (line_length (drop (Z.to_nat start) text))).

Definition substr_of (text : string) (r : Region) : string :=
  String.substring (Z.to_nat (region_a r)) (Z.to_nat (region_b r - region_a r)) text.

Definition full_line_of (text : string) (r : Region) : Region :=
  mkRegion (region_a (line_of text (region_a r)))
           (Z.min (Z.of_nat (String.length text)) (region_b (line_of text (region_b r)) + 1)).

Definition view_of (text : string) (selection : list Region) : View :=
  mkView (fun p => rowcol_from text (Z.to_nat p) 0 0)
         (line_of text) (substr_of text) (full_line_of text) selection.

(** Offset of the first character of the row [row] of [s]. *)
Fixpoint row_start (s : string) (row : nat) (offset : Z) : Z :=
  match row, s with
  | S row', String c s' =>
      if Ascii.eqb c nl then row_start s' row' (offset + 1)
      else row_start s' row (offset + 1)
  | _, _ => offset
  end.

(** Helpers for a view on [text]: 7-bit word characters, analyzer positions
    turned into offsets, messages left as they are. *)
Definition helpers (text : string) : Helpers :=
  mkHelpers ascii_word
            (fun _ p => row_start text (Z.to_nat (pos_line p - 1)) 0 + pos_col p)
            (fun s => s)
            (fun _ => "ocaml")
            "Cache/Merlin/gutter-icon.png".

(** An analyzer that completes [Li] to [List] and [Ma] to [Map], finds one
    type and reports two diagnostics, of which the second has no location. *)
Definition merlin : MerlinView :=
  mkMerlinView
    ["lwt"; "unix"] ["_build"] ["src"] (fun _ => ["lwt"])
    (fun _ _ => [mkItem "int" "no" (mkPosition 1 8) (mkPosition 1 9)])
    (fun _ _ _ ident =>
       match ident with
       | Some _ => LocateDict (mkPosition 12 4) (Some "list.ml")
       | None => LocateDict (mkPosition 1 4) None
       end)
    (fun _ => ["foo"]) (fun _ => "/src/foo.ml")
    (fun prefix _ _ =>
       if String.eqb prefix "Li" then [mkEntry "List" "module"]
       else if String.eqb prefix "Ma" then [mkEntry "Map" "module"]
       else [])
    [mkDiagnostic (Some (mkPosition 1 8)) (Some (mkPosition 1 9)) "type error";
     mkDiagnostic None None "warning"].

(** An analyzer that has nothing to say. *)
Definition silent : MerlinView :=
  mkMerlinView [] [] [] (fun _ => []) (fun _ _ => [])
    (fun _ _ _ _ => LocateMessage "Not found") (fun _ => []) (fun _ => "")
    (fun _ _ _ => []) [].

Definition text1 : string := "let x = Li".
Definition text2 : string := "let x = Ma".
Definition blank : string := "   ".

(** The listener after it has stored the completions of [Li]. *)
Definition after_first : Autocomplete.t :=
  Autocomplete.mk [("List" +:+ tab +:+ "module", "List")] (Some true)
                  [("List" +:+ tab +:+ "module", "List")].

(** The object built by [MerlinTypeEnclosing] when the analyzer answered
    [items]. *)
Definition panel (items : list TypeEnclosingItem) : MerlinTypeEnclosing.t :=
  MerlinTypeEnclosing.mk items (view_of text1 [mkRegion 8 8]) "ocaml".
End Demo.

(** Completion events and an editor for the examples of the panel: one
    window, numbered 1, whose output panel is the view 7; a view is in the
    window once it is listed in [attached]. *)
Module DemoPanel.
Definition ev1 : completion_event :=
  mkEvent (Demo.view_of Demo.text1 [mkRegion 10 10]) "Li" [10].
Definition ev2 : completion_event :=
  mkEvent (Demo.view_of Demo.text2 [mkRegion 10 10]) "Ma" [10].

Definition pending : Autocomplete.t := Autocomplete.mk [] (Some false) [].

(** Two regions meet when each starts before the other ends, or when they
    are the same. *)
Definition meet (r1 r2 : Region) : bool :=
  ((region_a r1 =? region_a r2) && (region_b r1 =? region_b r2))
  || ((region_a r1 <? region_b r2) && (region_a r2 <? region_b r1)).

Definition editor (attached : list Z) : Sublime :=
  mkSublime 1
    (fun v => if existsb (Z.eqb v) attached then Some 1 else None)
    (fun _ _ => 7)
    (fun w => negb (w =? 0))
    meet.

Definition stored : MerlinBuffer.t :=
  MerlinBuffer.mk [(mkRegion 20 30, "unused variable"); (mkRegion (-1) 10, "type error")].
End DemoPanel.

(** * Properties *)

(** ** The monad *)

Lemma trace_merlin_do {A : Type} (c : merlin_call) (k : unit -> io A) :
  trace (bind (merlin_do c) k) = Merlin c :: trace (k tt).
Proof. unfold trace, bind, merlin_do. destruct (k tt); reflexivity. Qed.

Lemma trace_lift_inr {A B : Type} (x : A) (k : A -> io B) :
  trace (bind (lift (inr x)) k) = trace (k x).
Proof. unfold trace, bind, lift. destruct (k x); reflexivity. Qed.

(** ** Python indexing *)

Lemma py_index_nil {A : Type} (i : Z) : py_index (@nil A) i = inl IndexError.
Proof.
  unfold py_index. simpl.
  destruct (i <? 0) eqn:Hi; [rewrite Z.add_0_r|];
    destruct (0 <=? i) eqn:H0; destruct (i <? 0) eqn:H1; simpl; try reflexivity; lia.
Qed.

Lemma py_index_0_cons {A : Type} (x : A) (l : list A) : py_index (x :: l) 0 = inr x.
Proof.
  unfold py_index. simpl Z.ltb. cbv iota.
  replace (0 <? Z.of_nat (List.length (x :: l))) with true; [reflexivity|].
  symmetry. apply Z.ltb_lt. simpl List.length. lia.
Qed.

(** ** Cancelled menus *)

(** C7. For every command that opens a choice menu (load package, remove
    build path, remove source path, enable extension, disable extension,
    find file, the menu of enclosing types), the completion handler called
    with the index [-1] makes no call on the analyzer, no call on the editor
    and raises nothing; it has no attribute assignment, so the command
    object is as before. *)
Theorem menu_cancel_is_noop :
  forall (h : Helpers)
         (load : MerlinLoadPackage.t) (rbuild : MerlinRemoveBuildPath.t)
         (rsource : MerlinRemoveSourcePath.t) (enable : MerlinEnableExtension.t)
         (disable : MerlinDisableExtension.t) (which : MerlinWhich.t)
         (types : MerlinTypeEnclosing.t),
    MerlinLoadPackage.on_done load (-1) = ([], inr tt) /\
    MerlinRemoveBuildPath.on_done rbuild (-1) = ([], inr tt) /\
    MerlinRemoveSourcePath.on_done rsource (-1) = ([], inr tt) /\
    MerlinEnableExtension.on_done enable (-1) = ([], inr tt) /\
    MerlinDisableExtension.on_done disable (-1) = ([], inr tt) /\
    MerlinWhich.on_done which (-1) = ([], inr tt) /\
    MerlinTypeEnclosing.on_done h types (-1) = ([], inr tt).
Proof. intros. repeat split; reflexivity. Qed.

(** ** The type panel *)

Lemma first_of_nil (self : MerlinTypeEnclosing.t) :
  MerlinTypeEnclosing.enclosing self = [] ->
  MerlinTypeEnclosing._first self = inl IndexError.
Proof. unfold MerlinTypeEnclosing._first. intros ->. reflexivity. Qed.

Lemma first_of_cons (self : MerlinTypeEnclosing.t) item rest :
  MerlinTypeEnclosing.enclosing self = item :: rest ->
  MerlinTypeEnclosing._first self = inr (MerlinTypeEnclosing._item_format self item).
Proof.
  unfold MerlinTypeEnclosing._first. intros ->. rewrite py_index_0_cons. reflexivity.
Qed.

(** C8. [_first] reads element 0 of the enclosing sequence whatever its
    length.  When the sequence is empty, [show_panel] raises [IndexError]
    and shows no popup, and so does the command [MerlinTypeCommand.run] when
    the analyzer answers the query with an empty sequence; when the sequence
    has a first item, [show_panel] shows the popup of that item. *)
Theorem show_panel_needs_first_item :
  forall (h : Helpers) (m : MerlinView) (self : MerlinTypeEnclosing.t) (pos : option Z),
    (MerlinTypeEnclosing.enclosing self = [] ->
       MerlinTypeEnclosing._first self = inl IndexError /\
       MerlinTypeEnclosing.show_panel self pos = ([], inl IndexError)) /\
    (forall item rest,
       MerlinTypeEnclosing.enclosing self = item :: rest ->
       MerlinTypeEnclosing.show_panel self pos =
         ([Editor (ShowPopup (MerlinTypeEnclosing._item_format self item)
                             (MerlinTypeEnclosing.popup_location pos) 800 600 true)],
          inr tt)) /\
    (forall view r rs,
       sel view = r :: rs ->
       type_enclosing_reply m (fst (rowcol view (region_begin r)) + 1)
                              (snd (rowcol view (region_begin r))) = [] ->
       outcome (MerlinTypeCommand.run h m view) = inl IndexError /\
       editor_calls (trace (MerlinTypeCommand.run h m view)) = []).
Proof.
  intros h m self pos. split; [|split].
  - intros Hnil. split; [apply first_of_nil; exact Hnil|].
    unfold MerlinTypeEnclosing.show_panel. rewrite (first_of_nil _ Hnil). reflexivity.
  - intros item rest Hcons.
    unfold MerlinTypeEnclosing.show_panel. rewrite (first_of_cons _ _ _ Hcons). reflexivity.
  - intros view r rs Hsel Hreply.
    unfold MerlinTypeCommand.run, MerlinTypeEnclosing.__init__.
    rewrite Hsel, py_index_0_cons.
    destruct (rowcol view (region_begin r)) as [row col] eqn:Hrc.
    simpl in Hreply.
    unfold MerlinTypeEnclosing.show_panel, MerlinTypeEnclosing._first. simpl.
    rewrite Hrc. simpl. rewrite Hreply. simpl. split; reflexivity.
Qed.

Lemma show_panel_needs_first_item_witness :
  MerlinTypeEnclosing.show_panel (Demo.panel []) None = ([], inl IndexError) /\
  MerlinTypeEnclosing.show_panel
    (Demo.panel [mkItem "int" "call" (mkPosition 1 8) (mkPosition 1 9)]) (Some 8)
  = ([Editor (ShowPopup ("```ocaml" +:+ newline +:+ "int (*tail-call*)" +:+ newline +:+ "```")
                        8 800 600 true)], inr tt) /\
  outcome (MerlinTypeCommand.run (Demo.helpers Demo.text1) Demo.silent
             (Demo.view_of Demo.text1 [mkRegion 8 8]))
  = inl IndexError.
Proof.
  pose proof (show_panel_needs_first_item (Demo.helpers Demo.text1) Demo.silent
                (Demo.panel []) None) as [Hnil [_ Hrun]].
  pose proof (show_panel_needs_first_item (Demo.helpers Demo.text1) Demo.silent
                (Demo.panel [mkItem "int" "call" (mkPosition 1 8) (mkPosition 1 9)])
                (Some 8)) as [_ [Hcons _]].
  split; [|split].
  - exact (proj2 (Hnil eq_refl)).
  - exact (Hcons (mkItem "int" "call" (mkPosition 1 8) (mkPosition 1 9)) [] eq_refl).
  - exact (proj1 (Hrun (Demo.view_of Demo.text1 [mkRegion 8 8]) (mkRegion 8 8) []
                       eq_refl eq_refl)).
Defined.

(** ** Showing a locate result *)

(** C5. A locate result with a position and a file opens that file, under
    the name [file:line:col+1] read as an encoded position; a result with a
    position only clears the selection of the active view, puts the caret at
    the point of that position and centres the view on it; a message is
    displayed in a dialog.  Every result falls in exactly one of the three
    cases: the handler raises nothing and performs exactly one of the three
    actions. *)
Theorem locate_result_three_cases :
  forall (h : Helpers) (window : View) (result : LocateResult),
    outcome (merlin_locate_result h result window) = inr tt /\
    match result with
    | LocateDict pos (Some file) =>
        trace (merlin_locate_result h result window)
        = [Editor (OpenFile (file +:+ ":" +:+ format_d (pos_line pos) +:+ ":"
                                  +:+ format_d (pos_col pos + 1))
                            [ENCODED_POSITION; TRANSIENT])] /\
        locate_actions (trace (merlin_locate_result h result window))
        = [OpensFile (file +:+ ":" +:+ format_d (pos_line pos) +:+ ":"
                           +:+ format_d (pos_col pos + 1))]
    | LocateDict pos None =>
        trace (merlin_locate_result h result window)
        = [Editor SelClear;
           Editor (SelAdd (mkRegion (merlin_pos h window pos) (merlin_pos h window pos)));
           Editor (ShowAtCenter (merlin_pos h window pos))] /\
        locate_actions (trace (merlin_locate_result h result window))
        = [MovesCaret (merlin_pos h window pos)]
    | LocateMessage msg =>
        trace (merlin_locate_result h result window) = [Editor (MessageDialog msg)] /\
        locate_actions (trace (merlin_locate_result h result window)) = [ShowsMessage msg]
    end.
Proof.
  intros h window [pos [file|]|msg]; simpl; repeat split; reflexivity.
Qed.

Example locate_result_external :
  trace (merlin_locate_result (Demo.helpers Demo.text1)
           (LocateDict (mkPosition 12 4) (Some "list.ml")) (Demo.view_of Demo.text1 []))
  = [Editor (OpenFile "list.ml:12:5" [ENCODED_POSITION; TRANSIENT])].
Proof. reflexivity. Qed.

(** ** Error diagnostics *)

Lemma show_errors_loop (h : Helpers) (view : View) (errors : list Diagnostic) :
  forall messages underlines,
    fold_left (MerlinBuffer.show_errors_step h view) errors (messages, underlines)
    = (messages ++ map snd (contributions h view errors),
       underlines ++ map fst (contributions h view errors)).
Proof.
  induction errors as [|e errors IH]; intros messages underlines.
  - simpl. rewrite !app_nil_r. reflexivity.
  - cbn [fold_left]. unfold contributions. cbn [flat_map].
    fold (contributions h view errors).
    replace (MerlinBuffer.show_errors_step h view (messages, underlines) e)
      with (match contribution h view e with
            | Some c => (messages ++ [snd c], underlines ++ [fst c])
            | None => (messages, underlines)
            end).
    + destruct (contribution h view e) as [c|]; rewrite IH.
      * rewrite !map_app, <- !app_assoc. reflexivity.
      * reflexivity.
    + unfold MerlinBuffer.show_errors_step, contribution.
      destruct (diag_start e), (diag_end e); reflexivity.
Qed.

(** C10. [show_errors] underlines one region and stores one message for
    each diagnostic of the report that has both a start and an end, in the
    order of the report, and nothing for the others; the stored list is
    computed from the report alone, whatever list was stored before. *)
Theorem show_errors_keeps_located :
  forall (h : Helpers) (self : MerlinBuffer.t) (m : MerlinView) (view : View),
    (forall e,
       (exists c, contribution h view e = Some c) <->
       (diag_start e <> None /\ diag_end e <> None)) /\
    MerlinBuffer.show_errors h self m view
    = ([Editor (EraseRegions "ocaml-underlines-errors");
        Merlin ReportErrors;
        Editor (AddRegions "ocaml-underlines-errors"
                  (map fst (contributions h view (report_errors_reply m)))
                  "invalid" (gutter_icon h)
                  [PERSISTENT; DRAW_SOLID_UNDERLINE; DRAW_NO_FILL; DRAW_NO_OUTLINE])],
       inr (MerlinBuffer.mk (map snd (contributions h view (report_errors_reply m))))).
Proof.
  intros h self m view. split.
  - intros e. unfold contribution.
    destruct (diag_start e), (diag_end e); split.
    + intros _. split; discriminate.
    + intros _. eexists. reflexivity.
    + intros [c Hc]. discriminate.
    + intros [_ Hn]. contradiction.
    + intros [c Hc]. discriminate.
    + intros [Hn _]. contradiction.
    + intros [c Hc]. discriminate.
    + intros [Hn _]. contradiction.
  - unfold MerlinBuffer.show_errors. rewrite show_errors_loop. reflexivity.
Qed.

Lemma show_errors_keeps_located_witness :
  (exists c,
     contribution (Demo.helpers Demo.text1) (Demo.view_of Demo.text1 [])
       (mkDiagnostic (Some (mkPosition 1 8)) (Some (mkPosition 1 9)) "type error")
     = Some c) /\
  outcome (MerlinBuffer.show_errors (Demo.helpers Demo.text1)
             (MerlinBuffer.mk [(mkRegion 0 3, "old")]) Demo.merlin
             (Demo.view_of Demo.text1 []))
  = inr (MerlinBuffer.mk [(mkRegion (-1) 10, "type error")]).
Proof.
  pose proof (show_errors_keeps_located (Demo.helpers Demo.text1)
                (MerlinBuffer.mk [(mkRegion 0 3, "old")]) Demo.merlin
                (Demo.view_of Demo.text1 [])) as [Hiff Heq].
  split.
  - apply Hiff. split; discriminate.
  - rewrite Heq. reflexivity.
Defined.

Example show_errors_demo :
  outcome (MerlinBuffer.show_errors (Demo.helpers Demo.text1)
             (MerlinBuffer.mk [(mkRegion 0 3, "old")]) Demo.merlin
             (Demo.view_of Demo.text1 []))
  = inr (MerlinBuffer.mk [(mkRegion (-1) 10, "type error")]).
Proof. reflexivity. Qed.

(** ** Sync before the queries *)

Lemma trace_bind {A B : Type} (m : io A) (k : A -> io B) :
  trace (bind m k)
  = trace m ++ match outcome m with inr x => trace (k x) | inl _ => [] end.
Proof.
  destruct m as [t [e|x]]; unfold trace, outcome, bind; simpl.
  - rewrite app_nil_r. reflexivity.
  - destruct (k x). reflexivity.
Qed.

Lemma synced_world_stays (t : list call) :
  forall w, mirror w = buffer w -> queries_see_buffer w t.
Proof.
  induction t as [|c t IH]; intros w Hw; simpl; [exact I|].
  split; [intros _; exact Hw|].
  apply IH. destruct c as [[]|]; simpl; auto.
Qed.

Lemma sync_first_sees_buffer (t : list call) (w : world) :
  queries_see_buffer w (Merlin Sync :: t).
Proof.
  simpl. split; [discriminate|]. apply synced_world_stays. reflexivity.
Qed.

Lemma sync_first_before (t : list call) : sync_before_queries (Merlin Sync :: t).
Proof.
  intros [|c1 t1] c t2 Heq Hq; simpl in Heq; inversion Heq; subst.
  - discriminate Hq.
  - left. reflexivity.
Qed.

Lemma nil_before : sync_before_queries [].
Proof. intros [|c1 t1] c t2 Heq; discriminate Heq. Qed.

(** A trace that is empty or starts with a sync is a good one. *)
Lemma sync_headed (t : list call) (w : world) :
  t = [] \/ (exists t', t = Merlin Sync :: t') ->
  sync_before_queries t /\ queries_see_buffer w t.
Proof.
  intros [->|[t' ->]].
  - split; [apply nil_before|exact I].
  - split; [apply sync_first_before|apply sync_first_sees_buffer].
Qed.

Lemma init_sync_headed h m view pos :
  exists t', trace (MerlinTypeEnclosing.__init__ h m view pos) = Merlin Sync :: t'.
Proof.
  unfold MerlinTypeEnclosing.__init__. rewrite trace_merlin_do. eexists. reflexivity.
Qed.

Lemma bind_sync_headed {A B : Type} (m : io A) (k : A -> io B) :
  (exists t', trace m = Merlin Sync :: t') ->
  exists t', trace (bind m k) = Merlin Sync :: t'.
Proof.
  intros [t' Ht]. rewrite trace_bind, Ht. simpl. eexists. reflexivity.
Qed.

(** C2. Each handler that asks the analyzer a question about a position
    (type enclosing, on demand, on hover and for the menu; locate under the
    cursor and by name; completion at the cursor) calls [sync] before the
    query: in its trace every such query comes after a sync, and, run from
    any state of the editor buffer and of the analyzer's copy, every such
    query finds the copy equal to the buffer. *)
Theorem queries_are_synced :
  forall (h : Helpers) (m : MerlinView) (view : View) (pos : option Z) (point : Z)
         (zone : hover_zone) (cls : MerlinLocateMli.subclass)
         (ncls : MerlinLocateNameMli.subclass) (name : string)
         (self : Autocomplete.t) (prefix : string) (locations : list Z) (w : world),
    Forall (fun t => sync_before_queries t /\ queries_see_buffer w t)
      [ trace (MerlinTypeEnclosing.__init__ h m view pos);
        trace (MerlinTypeCommand.run h m view);
        trace (MerlinTypeOnHover.on_hover h m view point zone);
        trace (MerlinTypeMenu.run h m view);
        trace (MerlinLocateMli.run h cls m view);
        trace (MerlinLocateNameMli.on_done h ncls m view name);
        trace (Autocomplete.on_query_completions h self m view prefix locations) ].
Proof.
  intros. repeat apply Forall_cons; try apply Forall_nil; apply sync_headed.
  - right. apply init_sync_headed.
  - right. apply bind_sync_headed, init_sync_headed.
  - destruct zone; [right; apply bind_sync_headed, init_sync_headed | left; reflexivity ..].
  - right. apply bind_sync_headed, init_sync_headed.
  - right. unfold MerlinLocateMli.run. rewrite trace_merlin_do. eexists. reflexivity.
  - right. unfold MerlinLocateNameMli.on_done. rewrite trace_merlin_do. eexists. reflexivity.
  - unfold Autocomplete.on_query_completions.
    destruct (py_index locations 0) as [e|l].
    + left. reflexivity.
    + right. rewrite trace_lift_inr, trace_merlin_do. eexists. reflexivity.
Qed.

Example type_command_trace :
  trace (MerlinTypeCommand.run (Demo.helpers Demo.text1) Demo.merlin
           (Demo.view_of Demo.text1 [mkRegion 8 8]))
  = [Merlin Sync; Merlin (TypeEnclosing 1 8);
     Editor (ShowPopup ("```ocaml" +:+ newline +:+ "int" +:+ newline +:+ "```")
                       (-1) 800 600 true)].
Proof. reflexivity. Qed.

(** ** Positions sent to the analyzer *)

Lemma merlin_calls_locate_result h result window :
  merlin_calls (trace (merlin_locate_result h result window)) = [].
Proof. destruct result as [pos [file|]|msg]; reflexivity. Qed.

Lemma locate_cursor_calls h cls m view r rs :
  sel view = r :: rs ->
  merlin_calls (trace (MerlinLocateMli.run h cls m view))
  = [Sync; Locate (fst (rowcol view (region_begin r)) + 1)
                  (snd (rowcol view (region_begin r)))
                  (Some (MerlinLocateMli.kind cls)) None].
Proof.
  intros Hsel. unfold MerlinLocateMli.run.
  rewrite trace_merlin_do, Hsel, py_index_0_cons, trace_lift_inr.
  destruct (rowcol view (region_begin r)) as [row col].
  rewrite trace_merlin_do. simpl. rewrite merlin_calls_locate_result. reflexivity.
Qed.

Lemma locate_name_calls h ncls m view r rs name :
  sel view = r :: rs ->
  merlin_calls (trace (MerlinLocateNameMli.on_done h ncls m view name))
  = [Sync; Locate (fst (rowcol view (region_begin r)) + 1)
                  (snd (rowcol view (region_begin r)))
                  None (Some name)].
Proof.
  intros Hsel. unfold MerlinLocateNameMli.on_done.
  rewrite trace_merlin_do, Hsel, py_index_0_cons, trace_lift_inr.
  destruct (rowcol view (region_begin r)) as [row col].
  rewrite trace_merlin_do. simpl. rewrite merlin_calls_locate_result. reflexivity.
Qed.

Lemma completion_calls h self m view prefix l ls :
  merlin_calls (trace (Autocomplete.on_query_completions h self m view prefix (l :: ls)))
  = match Autocomplete.cplns_ready self with
    | None => [Sync; CompleteCursor (expand_prefix (word h) (line_before view l))
                       (fst (rowcol view l) + 1) (snd (rowcol view l))]
    | Some _ => [Sync]
    end.
Proof.
  unfold Autocomplete.on_query_completions, line_before.
  rewrite py_index_0_cons, trace_lift_inr, trace_merlin_do.
  destruct (Autocomplete.cplns_ready self) as [[|]|].
  - destruct (Autocomplete.completions self); reflexivity.
  - reflexivity.
  - rewrite trace_lift_inr. destruct (rowcol view l) as [row col].
    rewrite trace_merlin_do. simpl.
    unfold Autocomplete.show_completions.
    destruct (Autocomplete.format_entries _); reflexivity.
Qed.

Lemma merlin_calls_In (c : merlin_call) (t : list call) :
  In (Merlin c) t -> In c (merlin_calls t).
Proof.
  intros Hin. unfold merlin_calls. apply in_flat_map.
  exists (Merlin c). split; [exact Hin|left; reflexivity].
Qed.

(** C3. At the four places where an editor position is handed to the
    analyzer (type enclosing, locate under the cursor, locate by name,
    completion at the cursor) the row given by [rowcol] is sent plus one and
    the column is sent as it is. *)
Theorem editor_row_plus_one :
  forall (h : Helpers) (m : MerlinView) (view : View) (r : Region) (rs : list Region)
         (p : Z) (cls : MerlinLocateMli.subclass) (ncls : MerlinLocateNameMli.subclass)
         (name : string) (self : Autocomplete.t) (prefix : string) (l : Z) (ls : list Z),
    sel view = r :: rs ->
    merlin_calls (trace (MerlinTypeEnclosing.__init__ h m view None))
    = [Sync; TypeEnclosing (fst (rowcol view (region_begin r)) + 1)
                           (snd (rowcol view (region_begin r)))] /\
    merlin_calls (trace (MerlinTypeEnclosing.__init__ h m view (Some p)))
    = [Sync; TypeEnclosing (fst (rowcol view p) + 1) (snd (rowcol view p))] /\
    merlin_calls (trace (MerlinLocateMli.run h cls m view))
    = [Sync; Locate (fst (rowcol view (region_begin r)) + 1)
                    (snd (rowcol view (region_begin r)))
                    (Some (MerlinLocateMli.kind cls)) None] /\
    merlin_calls (trace (MerlinLocateNameMli.on_done h ncls m view name))
    = [Sync; Locate (fst (rowcol view (region_begin r)) + 1)
                    (snd (rowcol view (region_begin r))) None (Some name)] /\
    (Autocomplete.cplns_ready self = None ->
     merlin_calls (trace (Autocomplete.on_query_completions h self m view prefix (l :: ls)))
     = [Sync; CompleteCursor (expand_prefix (word h) (line_before view l))
                (fst (rowcol view l) + 1) (snd (rowcol view l))]) /\
    (forall pfx line col,
       In (Merlin (CompleteCursor pfx line col))
          (trace (Autocomplete.on_query_completions h self m view prefix (l :: ls))) ->
       line = fst (rowcol view l) + 1 /\ col = snd (rowcol view l)).
Proof.
  intros h m view r rs p cls ncls name self prefix l ls Hsel.
  split; [|split; [|split; [|split; [|split]]]].
  - unfold MerlinTypeEnclosing.__init__. rewrite Hsel, py_index_0_cons.
    destruct (rowcol view (region_begin r)) as [row col] eqn:Hrc.
    simpl. rewrite Hrc. reflexivity.
  - unfold MerlinTypeEnclosing.__init__.
    destruct (rowcol view p) as [row col] eqn:Hrc.
    simpl. rewrite Hrc. reflexivity.
  - apply (locate_cursor_calls h cls m view r rs Hsel).
  - apply (locate_name_calls h ncls m view r rs name Hsel).
  - intros Hready. rewrite completion_calls, Hready. reflexivity.
  - intros pfx line col Hin. apply merlin_calls_In in Hin.
    rewrite completion_calls in Hin.
    destruct (Autocomplete.cplns_ready self) as [b|]; simpl in Hin.
    + destruct Hin as [Hin|[]]. discriminate Hin.
    + destruct Hin as [Hin|[Hin|[]]]; [discriminate Hin|].
      inversion Hin. split; reflexivity.
Qed.

Lemma editor_row_plus_one_witness :
  merlin_calls (trace (MerlinTypeEnclosing.__init__ (Demo.helpers Demo.text1) Demo.merlin
                         (Demo.view_of Demo.text1 [mkRegion 8 8]) None))
  = [Sync; TypeEnclosing 1 8] /\
  merlin_calls (trace (MerlinLocateMli.run (Demo.helpers Demo.text1)
                         MerlinLocateMli.MerlinLocateMl Demo.merlin
                         (Demo.view_of Demo.text1 [mkRegion 8 8])))
  = [Sync; Locate 1 8 (Some "ml") None] /\
  merlin_calls (trace (Autocomplete.on_query_completions (Demo.helpers Demo.text1)
                         Autocomplete.initial Demo.merlin
                         (Demo.view_of Demo.text1 [mkRegion 8 8]) "Li" [10]))
  = [Sync; CompleteCursor "Li" 1 10].
Proof.
  pose proof (editor_row_plus_one (Demo.helpers Demo.text1) Demo.merlin
                (Demo.view_of Demo.text1 [mkRegion 8 8]) (mkRegion 8 8) [] 8
                MerlinLocateMli.MerlinLocateMl MerlinLocateNameMli.Base "x"
                Autocomplete.initial "Li" 10 [] eq_refl) as [Ht [_ [Hl [_ [Hc _]]]]].
  split; [exact Ht|split; [exact Hl|exact (Hc eq_refl)]].
Defined.

(** ** The kind of a locate command *)

(** The commands that locate under the cursor pass the kind of their class. *)
Lemma locate_cursor_passes_kind h cls m view r rs line col kind ident :
  sel view = r :: rs ->
  In (Locate line col kind ident) (merlin_calls (trace (MerlinLocateMli.run h cls m view))) ->
  kind = Some (MerlinLocateMli.kind cls).
Proof.
  intros Hsel Hin. rewrite (locate_cursor_calls h cls m view r rs Hsel) in Hin.
  destruct Hin as [Hin|[Hin|[]]]; [discriminate Hin|]. inversion Hin. reflexivity.
Qed.

(** The declared kinds are the four values, each of them occurs. *)
Lemma locate_kinds :
  (forall cls, In (MerlinLocateMli.kind cls) ["ml"; "mli"; "mf"; "mfi"]) /\
  (forall ncls, In (MerlinLocateNameMli.kind ncls) ["ml"; "mli"; "mf"; "mfi"]) /\
  map MerlinLocateNameMli.kind
      [MerlinLocateNameMli.MerlinLocateNameMl; MerlinLocateNameMli.Base;
       MerlinLocateNameMli.MerlinLocateNameMf; MerlinLocateNameMli.NameMf_shadowed]
  = ["ml"; "mli"; "mf"; "mfi"].
Proof.
  split; [|split].
  - intros []; simpl; auto.
  - intros []; simpl; auto.
  - reflexivity.
Qed.

(** The commands that locate by name pass no kind, whatever their class
    declares. *)
Lemma locate_name_passes_no_kind h ncls m view name line col kind ident :
  In (Locate line col kind ident)
     (merlin_calls (trace (MerlinLocateNameMli.on_done h ncls m view name))) ->
  kind = None /\ ident = Some name.
Proof.
  unfold MerlinLocateNameMli.on_done. rewrite trace_merlin_do.
  destruct (py_index (sel view) 0) as [e|pos].
  - simpl. intros [Hin|[]]. discriminate Hin.
  - rewrite trace_lift_inr. destruct (rowcol view (region_begin pos)) as [row c].
    rewrite trace_merlin_do. simpl. rewrite merlin_calls_locate_result.
    intros [Hin|[Hin|[]]]; [discriminate Hin|]. inversion Hin. split; reflexivity.
Qed.

(** C4, at the failing input.  [MerlinLocateNameMl] declares the kind [ml];
    its [on_done], called with the name [List.map] while the caret is at
    offset 4 of the first line, calls [locate] with the position and the
    identifier and without any kind. *)
Theorem locate_by_name_drops_kind :
  MerlinLocateNameMli.kind MerlinLocateNameMli.MerlinLocateNameMl = "ml" /\
  merlin_calls (trace (MerlinLocateNameMli.on_done (Demo.helpers Demo.text1)
                         MerlinLocateNameMli.MerlinLocateNameMl Demo.merlin
                         (Demo.view_of Demo.text1 [mkRegion 4 4]) "List.map"))
  = [Sync; Locate 1 4 None (Some "List.map")] /\
  merlin_calls (trace (MerlinLocateMli.run (Demo.helpers Demo.text1)
                         MerlinLocateMli.MerlinLocateMl Demo.merlin
                         (Demo.view_of Demo.text1 [mkRegion 4 4])))
  = [Sync; Locate 1 4 (Some "ml") None].
Proof. repeat split; reflexivity. Qed.

(** ** Autocompletion *)

Lemma query_when_idle h self m view prefix l ls :
  Autocomplete.cplns_ready self = None ->
  Autocomplete.on_query_completions h self m view prefix (l :: ls)
  = let p := expand_prefix (word h) (line_before view l) in
    let line := fst (rowcol view l) + 1 in
    let col := snd (rowcol view l) in
    let cplns := Autocomplete.format_entries (complete_cursor_reply m p line col) in
    match cplns with
    | [] => ([Merlin Sync; Merlin (CompleteCursor p line col)],
             inr (Autocomplete.mk (Autocomplete.completions self) (Some true) [],
                  Autocomplete.default_return))
    | _ :: _ => ([Merlin Sync; Merlin (CompleteCursor p line col);
                  Editor (RunCommand "hide_auto_complete"); Editor (SetTimeoutShow 0)],
                 inr (Autocomplete.mk cplns (Some true) cplns,
                      Autocomplete.default_return))
    end.
Proof.
  intros Hready. unfold Autocomplete.on_query_completions, line_before.
  rewrite py_index_0_cons, Hready.
  cbv [bind lift merlin_do editor_do ret Autocomplete.show_completions].
  cbn beta iota zeta.
  cbn [Autocomplete.cplns Autocomplete.completions Autocomplete.cplns_ready].
  destruct (rowcol view l) as [row col]. simpl fst. simpl snd.
  remember (Autocomplete.format_entries
              (complete_cursor_reply m
                 (expand_prefix (word h)
                    (substr view (mkRegion (region_a (line view l)) l)))
                 (row + 1) col)) as cplns eqn:Hc.
  destruct cplns as [|c cs]; reflexivity.
Qed.

Lemma answer_when_ready h self m view prefix l ls :
  Autocomplete.cplns_ready self = Some true ->
  Autocomplete.on_query_completions h self m view prefix (l :: ls)
  = match Autocomplete.completions self with
    | [] => ([Merlin Sync],
             inr (Autocomplete.mk [] None (Autocomplete.cplns self),
                  Autocomplete.default_return))
    | _ :: _ => ([Merlin Sync],
                 inr (Autocomplete.mk [] None (Autocomplete.cplns self),
                      Autocomplete.Completions (Autocomplete.completions self)))
    end.
Proof.
  intros Hready. unfold Autocomplete.on_query_completions.
  rewrite py_index_0_cons, Hready.
  destruct (Autocomplete.completions self); reflexivity.
Qed.

Lemma default_when_pending h self m view prefix l ls :
  Autocomplete.cplns_ready self = Some false ->
  Autocomplete.on_query_completions h self m view prefix (l :: ls)
  = ([Merlin Sync], inr (self, Autocomplete.default_return)).
Proof.
  intros Hready. unfold Autocomplete.on_query_completions.
  rewrite py_index_0_cons, Hready. reflexivity.
Qed.

(** C6. The handler returns [([], INHIBIT_WORD_COMPLETIONS)] both when it
    has asked the analyzer and the reply has no entry, and when the result
    of an earlier query is not ready yet ([cplns_ready] is [False]); in
    neither case does it call the editor. *)
Theorem empty_and_pending_return_default :
  forall (h : Helpers) (m : MerlinView) (view : View) (prefix : string) (l : Z)
         (ls : list Z) (idle pending : Autocomplete.t),
    Autocomplete.cplns_ready idle = None ->
    Autocomplete.cplns_ready pending = Some false ->
    complete_cursor_reply m (expand_prefix (word h) (line_before view l))
                          (fst (rowcol view l) + 1) (snd (rowcol view l)) = [] ->
    exists idle' pending',
      outcome (Autocomplete.on_query_completions h idle m view prefix (l :: ls))
      = inr (idle', Autocomplete.CompletionsWithFlags [] [INHIBIT_WORD_COMPLETIONS]) /\
      outcome (Autocomplete.on_query_completions h pending m view prefix (l :: ls))
      = inr (pending', Autocomplete.CompletionsWithFlags [] [INHIBIT_WORD_COMPLETIONS]) /\
      editor_calls (trace (Autocomplete.on_query_completions h idle m view prefix (l :: ls)))
      = [] /\
      editor_calls (trace (Autocomplete.on_query_completions h pending m view prefix (l :: ls)))
      = [].
Proof.
  intros h m view prefix l ls idle pending Hidle Hpending Hreply.
  rewrite (query_when_idle h idle m view prefix l ls Hidle).
  rewrite (default_when_pending h pending m view prefix l ls Hpending).
  cbn zeta. rewrite Hreply. simpl.
  eexists. eexists. repeat split; reflexivity.
Qed.

Lemma empty_and_pending_return_default_witness :
  exists idle' pending',
    outcome (Autocomplete.on_query_completions (Demo.helpers Demo.blank)
               Autocomplete.initial Demo.merlin (Demo.view_of Demo.blank [mkRegion 3 3])
               "" [3])
    = inr (idle', Autocomplete.default_return) /\
    outcome (Autocomplete.on_query_completions (Demo.helpers Demo.blank)
               (Autocomplete.mk [] (Some false) []) Demo.merlin
               (Demo.view_of Demo.blank [mkRegion 3 3]) "" [3])
    = inr (pending', Autocomplete.default_return).
Proof.
  destruct (empty_and_pending_return_default (Demo.helpers Demo.blank) Demo.merlin
              (Demo.view_of Demo.blank [mkRegion 3 3]) "" 3 []
              Autocomplete.initial (Autocomplete.mk [] (Some false) [])
              eq_refl eq_refl eq_refl) as [idle' [pending' [Hi [Hp _]]]].
  exists idle', pending'. split; [exact Hi|exact Hp].
Defined.

(** C1, the claim fails.  The listener starts idle on the line [let x = Li]
    and asks for the completions of [Li]; the reply [List] is stored.  The
    next call comes for the line [let x = Ma], for which the analyzer would
    answer [Map]: it issues no completion query and hands [List] to the
    editor. *)
Lemma stale_completions_applied :
  outcome (Autocomplete.on_query_completions (Demo.helpers Demo.text1)
             Autocomplete.initial Demo.merlin
             (Demo.view_of Demo.text1 [mkRegion 10 10]) "Li" [10])
  = inr (Demo.after_first, Autocomplete.default_return) /\
  Autocomplete.on_query_completions (Demo.helpers Demo.text2)
    Demo.after_first Demo.merlin (Demo.view_of Demo.text2 [mkRegion 10 10]) "Ma" [10]
  = ([Merlin Sync],
     inr (Autocomplete.mk [] None [("List" +:+ tab +:+ "module", "List")],
          Autocomplete.Completions [("List" +:+ tab +:+ "module", "List")])) /\
  ~ applies_own_generation (Demo.helpers Demo.text2) Demo.merlin Demo.after_first
      (Demo.view_of Demo.text2 [mkRegion 10 10]) "Ma" [10].
Proof.
  split; [reflexivity|split; [reflexivity|]].
  intros Hown.
  destruct (Hown _ _ eq_refl) as [p [line [col [Hin _]]]].
  simpl in Hin. destruct Hin as [Hin|[]]. discriminate Hin.
Qed.

(** C1, as the code has it.  There is no generation counter: the listener
    keeps the flag [cplns_ready] and one stored list.  A call made while the
    flag is [None] issues the query for its own prefix and position and
    returns the default; when the reply has entries it stores them, asks the
    editor to open the completion popup again and leaves the flag at [True].
    The following call, whatever its view, prefix and position, issues no
    completion query, returns the stored entries, empties the store and
    puts the flag back to [None].  A call made while the flag is [False]
    issues no query and changes nothing. *)
Theorem stored_completions_go_to_next_call :
  forall (h : Helpers) (m : MerlinView) (self : Autocomplete.t)
         (view1 view2 : View) (prefix1 prefix2 : string) (l1 l2 : Z) (ls1 ls2 : list Z),
    Autocomplete.cplns_ready self = None ->
    let p := expand_prefix (word h) (line_before view1 l1) in
    let line := fst (rowcol view1 l1) + 1 in
    let col := snd (rowcol view1 l1) in
    let cplns := Autocomplete.format_entries (complete_cursor_reply m p line col) in
    cplns <> [] ->
    Autocomplete.on_query_completions h self m view1 prefix1 (l1 :: ls1)
    = ([Merlin Sync; Merlin (CompleteCursor p line col);
        Editor (RunCommand "hide_auto_complete"); Editor (SetTimeoutShow 0)],
       inr (Autocomplete.mk cplns (Some true) cplns, Autocomplete.default_return)) /\
    Autocomplete.on_query_completions h (Autocomplete.mk cplns (Some true) cplns) m
      view2 prefix2 (l2 :: ls2)
    = ([Merlin Sync],
       inr (Autocomplete.mk [] None cplns, Autocomplete.Completions cplns)) /\
    (forall pending,
       Autocomplete.cplns_ready pending = Some false ->
       Autocomplete.on_query_completions h pending m view2 prefix2 (l2 :: ls2)
       = ([Merlin Sync], inr (pending, Autocomplete.default_return))).
Proof.
  intros h m self view1 view2 prefix1 prefix2 l1 l2 ls1 ls2 Hready p line col cplns Hne.
  split; [|split].
  - rewrite (query_when_idle h self m view1 prefix1 l1 ls1 Hready).
    cbn zeta. fold p line col cplns.
    destruct cplns as [|c cs]; [contradiction|reflexivity].
  - rewrite answer_when_ready by reflexivity.
    simpl. destruct cplns as [|c cs]; [contradiction|reflexivity].
  - intros pending Hpending. apply default_when_pending. exact Hpending.
Qed.

Lemma stored_completions_go_to_next_call_witness :
  Autocomplete.on_query_completions (Demo.helpers Demo.text1) Demo.after_first Demo.merlin
    (Demo.view_of Demo.text2 [mkRegion 10 10]) "Ma" [10]
  = ([Merlin Sync],
     inr (Autocomplete.mk [] None [("List" +:+ tab +:+ "module", "List")],
          Autocomplete.Completions [("List" +:+ tab +:+ "module", "List")])).
Proof.
  assert (Hne : Autocomplete.format_entries [mkEntry "List" "module"] <> [])
    by discriminate.
  exact (proj1 (proj2
    (stored_completions_go_to_next_call (Demo.helpers Demo.text1) Demo.merlin
       Autocomplete.initial (Demo.view_of Demo.text1 [mkRegion 10 10])
       (Demo.view_of Demo.text2 [mkRegion 10 10]) "Li" "Ma" 10 10 [] [] eq_refl Hne))).
Defined.

(** ** The completion prefix *)

Lemma append_nil_r (s : string) : s +:+ "" = s.
Proof. induction s as [|c s IH]; simpl; [reflexivity|rewrite IH; reflexivity]. Qed.

Lemma append_assoc (a b c : string) : (a +:+ b) +:+ c = a +:+ b +:+ c.
Proof. induction a as [|x a IH]; simpl; [reflexivity|rewrite IH; reflexivity]. Qed.

Lemma append_eq_nil (a b : string) : a +:+ b = "" -> a = "" /\ b = "".
Proof. destruct a; simpl; [auto|discriminate]. Qed.

Lemma last_char_snoc (s : string) (c : ascii) : last_char (s +:+ String c "") = Some c.
Proof.
  induction s as [|x s IH]; simpl; [reflexivity|].
  destruct (s +:+ String c "") eqn:E; [|exact IH].
  apply append_eq_nil in E. destruct E as [_ E]. discriminate E.
Qed.

Lemma last_char_app (s t : string) : t <> "" -> last_char (s +:+ t) = last_char t.
Proof.
  intros Ht. induction s as [|x s IH]; simpl; [reflexivity|].
  destruct (s +:+ t) eqn:E; [|exact IH].
  apply append_eq_nil in E. destruct E as [_ E]. contradiction.
Qed.

Lemma last_char_cons (x : ascii) (s : string) :
  s <> "" -> last_char (String x s) = last_char s.
Proof. destruct s; [contradiction|reflexivity]. Qed.

Lemma py_index_last {A : Type} (l : list A) (x : A) : py_index (l ++ [x]) (-1) = inr x.
Proof.
  unfold py_index. rewrite length_app. simpl List.length.
  replace (-1 <? 0) with true by reflexivity.
  replace (-1 + Z.of_nat (List.length l + 1)) with (Z.of_nat (List.length l)) by lia.
  replace (0 <=? Z.of_nat (List.length l)) with true by (symmetry; apply Z.leb_le; lia).
  replace (Z.of_nat (List.length l) <? Z.of_nat (List.length l + 1)) with true
    by (symmetry; apply Z.ltb_lt; lia).
  simpl andb. cbv iota. rewrite Nat2Z.id.
  rewrite nth_error_app2 by lia. rewrite Nat.sub_diag. reflexivity.
Qed.

Lemma py_index_single {A : Type} (x : A) : py_index [x] (-1) = inr x.
Proof. reflexivity. Qed.

Lemma py_index_last_app {A : Type} (l1 l2 : list A) :
  l2 <> [] -> py_index (l1 ++ l2) (-1) = py_index l2 (-1).
Proof.
  intros Hne. destruct (exists_last Hne) as [l2' [x ->]].
  rewrite app_assoc, !py_index_last. reflexivity.
Qed.

Lemma py_index_last_inr {A : Type} (l : list A) :
  l <> [] -> exists x, py_index l (-1) = inr x.
Proof.
  intros Hne. destruct (exists_last Hne) as [l' [x ->]].
  exists x. apply py_index_last.
Qed.

Section RegexFacts.

Variable word_char : ascii -> bool.

Lemma flush_nil (u : string) : flush "" u = [].
Proof. reflexivity. Qed.

Lemma flush_token (cur u : string) : cur <> "" -> flush cur u = [(cur, u)].
Proof. destruct cur; [contradiction|reflexivity]. Qed.

Lemma token_nonempty (t : string) : token word_char t -> t <> "".
Proof.
  intros Ht. induction Ht as [u Hu|t u Ht IH Hu].
  - destruct Hu as [[c [_ ->]]| ->]; discriminate.
  - intros E. apply append_eq_nil in E. destruct E as [E _]. contradiction.
Qed.

Lemma token_extend (cur u : string) :
  cur = "" \/ token word_char cur -> unit_str word_char u ->
  token word_char (cur +:+ u).
Proof.
  intros [->|Ht] Hu; simpl.
  - apply token_unit. exact Hu.
  - apply token_snoc; assumption.
Qed.

(** A token ends with a character of the class or with [>]. *)
Lemma token_last_char (t : string) :
  token word_char t ->
  exists c, last_char t = Some c /\ (class_char word_char c = true \/ c = gt).
Proof.
  intros Ht.
  assert (Hunit : forall p u, unit_str word_char u ->
            exists c, last_char (p +:+ u) = Some c /\
                      (class_char word_char c = true \/ c = gt)).
  { intros p u [[c [Hc ->]]| ->].
    - exists c. split; [apply last_char_snoc|left; exact Hc].
    - exists gt. split; [|right; reflexivity].
      rewrite last_char_app by discriminate. reflexivity. }
  destruct Ht as [u Hu|t u _ Hu].
  - apply (Hunit "" u Hu).
  - apply (Hunit t u Hu).
Qed.

(** A text whose last character is neither of the class nor a [>] that
    follows a [-] does not end with a repetition of the group. *)
Lemma ends_with_unit_snoc (p : string) (c : ascii) :
  ends_with_unit word_char (p +:+ String c "") ->
  class_char word_char c = true \/ (c = gt /\ last_char p = Some dash).
Proof.
  induction p as [|x p IH]; intros H; simpl in H.
  - inversion H as [c' Hc| |c' s' Hs]; subst.
    + left. assumption.
    + inversion Hs.
  - remember (String x (p +:+ String c "")) as t eqn:Et.
    destruct H as [c' Hc| |c' s' Hs].
    + inversion Et as [[Ex Ep]]. destruct p; discriminate Ep.
    + inversion Et as [[Ex Ep]]. subst x.
      destruct p as [|y p]; simpl in Ep.
      * inversion Ep. right. split; reflexivity.
      * inversion Ep as [[Ey Ep']]. destruct p; discriminate Ep'.
    + inversion Et as [[Ex Ep]]. subst.
      destruct (IH Hs) as [Hc|[Hc Hl]]; [left; exact Hc|].
      right. split; [exact Hc|].
      rewrite last_char_cons; [exact Hl|]. intros ->. discriminate Hl.
Qed.

(** The equations of [scan]. *)
Lemma scan_class (cur u : string) (c : ascii) (s : string) :
  class_char word_char c = true ->
  scan word_char cur u (String c s)
  = scan word_char (cur +:+ String c "") (String c "") s.
Proof. intros Hc. simpl. rewrite Hc. reflexivity. Qed.

Lemma scan_arrow (cur u : string) (s : string) :
  class_char word_char dash = false ->
  scan word_char cur u (String dash (String gt s))
  = scan word_char (cur +:+ "->") "->" s.
Proof. intros Hc. simpl. rewrite Hc. reflexivity. Qed.

Lemma scan_skip (cur u : string) (c : ascii) (s : string) :
  class_char word_char c = false ->
  (c = dash -> forall s', s <> String gt s') ->
  scan word_char cur u (String c s) = flush cur u ++ scan word_char "" "" s.
Proof.
  intros Hc Hskip. simpl. rewrite Hc.
  destruct (Ascii.eqb c dash) eqn:Hd; [|reflexivity].
  apply Ascii.eqb_eq in Hd.
  destruct s as [|c' s'']; [reflexivity|].
  destruct (Ascii.eqb c' gt) eqn:Hg; [|reflexivity].
  apply Ascii.eqb_eq in Hg. subst c'. exfalso. apply (Hskip Hd s''). reflexivity.
Qed.

(** The three cases of a non-empty text. *)
Lemma scan_cases (c : ascii) (s : string) :
  class_char word_char c = true \/
  (class_char word_char c = false /\ c = dash /\ exists s'', s = String gt s'') \/
  (class_char word_char c = false /\ (c = dash -> forall s', s <> String gt s')).
Proof.
  destruct (class_char word_char c) eqn:Hc; [left; reflexivity|right].
  destruct (Ascii.eqb c dash) eqn:Hd.
  - apply Ascii.eqb_eq in Hd.
    destruct s as [|c' s''].
    + right. split; [reflexivity|]. intros _ s'. discriminate.
    + destruct (Ascii.eqb c' gt) eqn:Hg.
      * apply Ascii.eqb_eq in Hg. subst c'. left. repeat split; [exact Hd|].
        exists s''. reflexivity.
      * apply Ascii.eqb_neq in Hg. right. split; [reflexivity|].
        intros _ s' E. inversion E. contradiction.
  - apply Ascii.eqb_neq in Hd. right. split; [reflexivity|].
    intros E. contradiction.
Qed.

(** Without a word character, a dot or an arrow there is no match. *)
Lemma scan_nothing (s : string) :
  ~ occurs_unit word_char s -> scan word_char "" "" s = [].
Proof.
  induction s as [|c s IH]; intros Hno; [reflexivity|].
  destruct (scan_cases c s) as [Hc|[[Hc [Hd [s'' Hs]]]|[Hc Hskip]]].
  - exfalso. apply Hno. apply occurs_class. exact Hc.
  - exfalso. apply Hno. subst. apply occurs_arrow.
  - rewrite scan_skip by assumption. rewrite flush_nil. simpl.
    apply IH. intros Hocc. apply Hno. apply occurs_later. exact Hocc.
Qed.

Lemma skip_no_unit (c : ascii) (s : string) :
  class_char word_char c = false ->
  (c = dash -> forall s', s <> String gt s') ->
  ~ occurs_unit word_char s -> ~ occurs_unit word_char (String c s).
Proof.
  intros Hc Hskip Hno Hocc.
  inversion Hocc as [c' s' Hc'|s'|c' s' Hs]; subst.
  - rewrite Hc in Hc'. discriminate.
  - apply (Hskip eq_refl s'). reflexivity.
  - contradiction.
Qed.

End RegexFacts.

Section LastToken.

Variable word_char : ascii -> bool.
Hypothesis dash_not_word : word_char dash = false.

Lemma class_dash : class_char word_char dash = false.
Proof. unfold class_char. rewrite dash_not_word. reflexivity. Qed.

Lemma scan_ok_shift (bef cur x s : string) (found : exn + (string * string)) :
  x <> "" ->
  scan_ok word_char bef (cur +:+ x) s found ->
  scan_ok word_char bef cur (x +:+ s) found.
Proof.
  intros Hx. destruct found as [e|[tok g]]; simpl.
  - intros [E _]. apply append_eq_nil in E. destruct E as [_ E]. contradiction.
  - intros [pre [post [E H]]]. exists pre, post. split; [|exact H].
    rewrite <- E, append_assoc. reflexivity.
Qed.

Lemma scan_spec_nil : scan_spec_at word_char "".
Proof.
  intros bef cur u [[->|Hcur] [Hbef _]]; cbn [scan].
  - rewrite flush_nil, py_index_nil. split; [reflexivity|]. intros H. inversion H.
  - rewrite (flush_token cur u (token_nonempty _ _ Hcur)).
    rewrite py_index_single. simpl.
    exists bef, "". repeat split; try assumption. intros H. inversion H.
Qed.

Lemma scan_spec_step (c : ascii) (s : string) :
  scan_spec_at word_char s ->
  (forall a s'', s = String a s'' -> scan_spec_at word_char s'') ->
  scan_spec_at word_char (String c s).
Proof.
  intros HP Hsub bef cur u [Hcur [Hbef Hgap]].
  destruct (scan_cases word_char c s) as [Hc|[[Hc [Hd [s'' Hs]]]|[Hc Hskip]]].
  - rewrite scan_class by exact Hc.
    apply (scan_ok_shift bef cur (String c "") s); [discriminate|].
    apply HP. split; [right|split; [exact Hbef|]].
    + apply token_extend; [exact Hcur|]. left. exists c. split; [exact Hc|reflexivity].
    + intros E. apply append_eq_nil in E. destruct E as [_ E]. discriminate E.
  - subst c s. rewrite scan_arrow by exact class_dash.
    apply (scan_ok_shift bef cur "->" s''); [discriminate|].
    apply (Hsub gt s'' eq_refl). split; [right|split; [exact Hbef|]].
    + apply token_extend; [exact Hcur|]. right. reflexivity.
    + intros E. apply append_eq_nil in E. destruct E as [_ E]. discriminate E.
  - rewrite scan_skip by assumption.
    assert (Hstart : started word_char (bef +:+ cur +:+ String c "") "" s).
    { split; [left; reflexivity|split].
      - rewrite <- append_assoc. intros Hend.
        apply ends_with_unit_snoc in Hend.
        destruct Hend as [Hc'|[Hg Hl]]; [rewrite Hc in Hc'; discriminate|].
        destruct Hcur as [->|Hcur].
        + rewrite append_nil_r in Hl. subst c. apply (Hgap eq_refl Hl s). reflexivity.
        + rewrite last_char_app in Hl by (apply token_nonempty with word_char; exact Hcur).
          destruct (token_last_char _ _ Hcur) as [c0 [Hl0 [Hc0| ->]]];
            rewrite Hl0 in Hl; inversion Hl.
          * subst c0. rewrite class_dash in Hc0. discriminate.
      - intros _ Hl. rewrite <- append_assoc, last_char_snoc in Hl.
        inversion Hl. apply Hskip. assumption. }
    specialize (HP _ _ "" Hstart).
    destruct (scan word_char "" "" s) as [|m ms] eqn:Escan.
    + rewrite py_index_nil in HP. destruct HP as [_ Hno].
      rewrite app_nil_r.
      assert (Hno' : ~ occurs_unit word_char (String c s))
        by (apply skip_no_unit; assumption).
      destruct Hcur as [->|Hcur].
      * rewrite flush_nil, py_index_nil. split; [reflexivity|exact Hno'].
      * rewrite (flush_token cur u (token_nonempty _ _ Hcur)).
        rewrite py_index_single. simpl.
        exists bef, (String c s). repeat split; assumption.
    + rewrite py_index_last_app by discriminate.
      destruct (py_index_last_inr (m :: ms)) as [[tok g] Hlast]; [discriminate|].
      rewrite Hlast in *. simpl in *.
      destruct HP as [pre [post [E H]]]. exists pre, post. split; [|exact H].
      rewrite <- E. rewrite !append_assoc. reflexivity.
Qed.

Lemma scan_spec (s : string) : scan_spec_at word_char s.
Proof.
  assert (H : forall s, scan_spec_at word_char s /\
                        forall c, scan_spec_at word_char (String c s)).
  { clear s. induction s as [|a s [IH1 IH2]].
    - split; [exact scan_spec_nil|]. intros c. apply scan_spec_step.
      + exact scan_spec_nil.
      + intros a s'' E. discriminate E.
    - split; [apply IH2|]. intros c. apply scan_spec_step.
      + apply IH2.
      + intros a' s'' E. inversion E. subst. exact IH1. }
  apply H.
Qed.

(** On a line where a word character, a dot or an arrow occurs, the
    prefix is the last token of the line. *)
Lemma expand_prefix_last_token (line : string) :
  occurs_unit word_char line ->
  last_token word_char line (expand_prefix word_char line).
Proof.
  intros Hocc.
  assert (Hstart : started word_char "" "" line).
  { split; [left; reflexivity|split].
    - intros H. inversion H.
    - intros _ H. discriminate H. }
  pose proof (scan_spec line "" "" "" Hstart) as Hok.
  unfold expand_prefix, findall.
  destruct (py_index (scan word_char "" "" line) (-1)) as [e|[tok g]]; simpl in Hok.
  - destruct Hok as [_ Hno]. contradiction.
  - exact Hok.
Qed.

End LastToken.

(** On a line without a word character, a dot or an arrow, the lookup of the
    last match fails and the prefix is empty. *)
Lemma expand_prefix_no_token (word_char : ascii -> bool) (line : string) :
  ~ occurs_unit word_char line -> expand_prefix word_char line = "".
Proof.
  intros Hno. unfold expand_prefix, findall.
  rewrite scan_nothing by exact Hno. rewrite py_index_nil. reflexivity.
Qed.

Lemma completion_never_raises h self m view prefix l ls :
  exists r, outcome (Autocomplete.on_query_completions h self m view prefix (l :: ls)) = inr r.
Proof.
  destruct (Autocomplete.cplns_ready self) as [[|]|] eqn:Hready.
  - rewrite answer_when_ready by exact Hready.
    destruct (Autocomplete.completions self); eexists; reflexivity.
  - rewrite default_when_pending by exact Hready. eexists. reflexivity.
  - rewrite query_when_idle by exact Hready. cbn zeta.
    destruct (Autocomplete.format_entries _); eexists; reflexivity.
Qed.

(** C9. The prefix of every completion query that the handler issues is
    [expand_prefix] of the text between the start of the line and the
    cursor.  When a word character, a dot or an arrow occurs in that text,
    this is its last token ([-] not being a word character).  When none
    occurs, the lookup of the last match raises [IndexError], which is
    caught: the prefix is empty, the handler does not raise, and the query
    is still issued, with the empty prefix: it is issued when the listener
    is idle, and more generally whenever the listener, in the same state,
    would issue a query for any other text. *)
Theorem completion_prefix_is_last_token :
  forall (h : Helpers) (self : Autocomplete.t) (m : MerlinView) (view : View)
         (prefix : string) (l : Z) (ls : list Z),
    (forall p line col,
       In (Merlin (CompleteCursor p line col))
          (trace (Autocomplete.on_query_completions h self m view prefix (l :: ls))) ->
       p = expand_prefix (word h) (line_before view l)) /\
    (word h dash = false ->
     occurs_unit (word h) (line_before view l) ->
     last_token (word h) (line_before view l)
                (expand_prefix (word h) (line_before view l))) /\
    (~ occurs_unit (word h) (line_before view l) ->
     expand_prefix (word h) (line_before view l) = "" /\
     (exists r,
        outcome (Autocomplete.on_query_completions h self m view prefix (l :: ls)) = inr r) /\
     (Autocomplete.cplns_ready self = None ->
      merlin_calls (trace (Autocomplete.on_query_completions h self m view prefix (l :: ls)))
      = [Sync; CompleteCursor "" (fst (rowcol view l) + 1) (snd (rowcol view l))]) /\
     (forall view' prefix' l' ls' p line col,
        In (Merlin (CompleteCursor p line col))
           (trace (Autocomplete.on_query_completions h self m view' prefix' (l' :: ls'))) ->
        In (Merlin (CompleteCursor "" (fst (rowcol view l) + 1) (snd (rowcol view l))))
           (trace (Autocomplete.on_query_completions h self m view prefix (l :: ls))))).
Proof.
  intros h self m view prefix l ls. split; [|split].
  - intros p line col Hin. apply merlin_calls_In in Hin.
    rewrite completion_calls in Hin.
    destruct (Autocomplete.cplns_ready self) as [b|]; simpl in Hin.
    + destruct Hin as [Hin|[]]. discriminate Hin.
    + destruct Hin as [Hin|[Hin|[]]]; [discriminate Hin|].
      inversion Hin. reflexivity.
  - intros Hdash Hocc. apply expand_prefix_last_token; assumption.
  - intros Hno.
    pose proof (expand_prefix_no_token (word h) _ Hno) as Hempty.
    split; [exact Hempty|split; [apply completion_never_raises|split]].
    + intros Hready. rewrite completion_calls, Hready, Hempty. reflexivity.
    + intros view' prefix' l' ls' p line col Hin.
      apply merlin_calls_In in Hin. rewrite completion_calls in Hin.
      destruct (Autocomplete.cplns_ready self) as [b|] eqn:Hready; simpl in Hin.
      * destruct Hin as [Hin|[]]. discriminate Hin.
      * rewrite (query_when_idle h self m view prefix l ls Hready).
        cbn zeta. rewrite Hempty.
        destruct (Autocomplete.format_entries _); simpl; auto.
Qed.

Lemma blank_has_no_token : ~ occurs_unit ascii_word Demo.blank.
Proof.
  intros H.
  repeat match goal with
         | H : occurs_unit _ _ |- _ => inversion H; clear H; subst; try discriminate
         end.
Qed.

Lemma completion_prefix_is_last_token_witness :
  last_token ascii_word "let x = Li" "Li" /\
  merlin_calls (trace (Autocomplete.on_query_completions (Demo.helpers Demo.blank)
                         Autocomplete.initial Demo.merlin
                         (Demo.view_of Demo.blank [mkRegion 3 3]) "" [3]))
  = [Sync; CompleteCursor "" 1 3].
Proof.
  split.
  - exact (proj1 (proj2
      (completion_prefix_is_last_token (Demo.helpers Demo.text1) Autocomplete.initial
         Demo.merlin (Demo.view_of Demo.text1 [mkRegion 10 10]) "Li" 10 []))
      eq_refl (occurs_class ascii_word "l"%char "et x = Li" eq_refl)).
  - exact (proj1 (proj2 (proj2 (proj2 (proj2
      (completion_prefix_is_last_token (Demo.helpers Demo.blank) Autocomplete.initial
         Demo.merlin (Demo.view_of Demo.blank [mkRegion 3 3]) "" 3 []))
      blank_has_no_token))) eq_refl).
Defined.

(** * Further properties of the module *)

(** ** The analyzer process *)

Lemma merlin_views_running (views : list View) :
  forall g p,
    running_process g = Some p ->
    merlin_views g views = (g, repeat p (List.length views)).
Proof.
  induction views as [|view views IH]; intros g p Hrun; [reflexivity|].
  simpl. unfold merlin_view, merlin_process. rewrite Hrun.
  rewrite (IH g p Hrun). reflexivity.
Qed.

(** X1. However many [MerlinView] objects are built, they all wrap the
    same process and at most one process is built; starting with no
    running process, exactly one is built, by the first call. *)
Theorem one_process_for_all_views :
  forall (g : globals) (view : View) (views : list View),
    (exists p,
       snd (merlin_views g (view :: views)) = repeat p (S (List.length views)) /\
       running_process (fst (merlin_views g (view :: views))) = Some p) /\
    (processes_built (fst (merlin_views g (view :: views))) <= S (processes_built g))%nat /\
    merlin_views initial_globals (view :: views)
    = (mkGlobals (Some 0%nat) 1, repeat 0%nat (S (List.length views))).
Proof.
  intros g view views.
  assert (Hinit : forall g0, running_process g0 = None ->
            merlin_views g0 (view :: views)
            = (mkGlobals (Some (processes_built g0)) (S (processes_built g0)),
               repeat (processes_built g0) (S (List.length views)))).
  { intros g0 Hnone. simpl. unfold merlin_view, merlin_process. rewrite Hnone.
    rewrite (merlin_views_running views
               (mkGlobals (Some (processes_built g0)) (S (processes_built g0)))
               (processes_built g0) eq_refl).
    reflexivity. }
  split; [|split].
  - destruct (running_process g) as [p|] eqn:Hrun.
    + exists p. rewrite (merlin_views_running _ g p Hrun). split; [reflexivity|exact Hrun].
    + exists (processes_built g). rewrite (Hinit g Hrun). split; reflexivity.
  - destruct (running_process g) as [p|] eqn:Hrun.
    + rewrite (merlin_views_running _ g p Hrun). simpl. lia.
    + rewrite (Hinit g Hrun). simpl. lia.
  - apply (Hinit initial_globals). reflexivity.
Qed.

(** ** Choosing in a menu *)

Lemma py_index_nth {A : Type} (l : list A) (i : Z) (x : A) :
  0 <= i -> nth_error l (Z.to_nat i) = Some x -> py_index l i = inr x.
Proof.
  intros Hi Hnth. unfold py_index.
  assert (Hlt : (Z.to_nat i < List.length l)%nat)
    by (apply nth_error_Some; rewrite Hnth; discriminate).
  replace (i <? 0) with false by (symmetry; apply Z.ltb_ge; lia).
  replace (0 <=? i) with true by (symmetry; apply Z.leb_le; lia).
  replace (i <? Z.of_nat (List.length l)) with true by (symmetry; apply Z.ltb_lt; lia).
  simpl. rewrite Hnth. reflexivity.
Qed.

Lemma py_index_from_end {A : Type} (l : list A) (i : Z) (x : A) :
  i < 0 -> 0 <= i + Z.of_nat (List.length l) ->
  nth_error l (Z.to_nat (i + Z.of_nat (List.length l))) = Some x ->
  py_index l i = inr x.
Proof.
  intros Hi Hlo Hnth. unfold py_index.
  replace (i <? 0) with true by (symmetry; apply Z.ltb_lt; lia).
  replace (0 <=? i + Z.of_nat (List.length l)) with true by (symmetry; apply Z.leb_le; lia).
  replace (i + Z.of_nat (List.length l) <? Z.of_nat (List.length l)) with true
    by (symmetry; apply Z.ltb_lt; lia).
  simpl. rewrite Hnth. reflexivity.
Qed.

Lemma py_index_outside {A : Type} (l : list A) (i : Z) :
  Z.of_nat (List.length l) <= i \/ i < - Z.of_nat (List.length l) ->
  py_index l i = inl IndexError.
Proof.
  intros Hout. unfold py_index.
  destruct (i <? 0) eqn:Hneg.
  - apply Z.ltb_lt in Hneg.
    destruct (0 <=? i + Z.of_nat (List.length l)) eqn:Hlo; [|reflexivity].
    apply Z.leb_le in Hlo. lia.
  - apply Z.ltb_ge in Hneg.
    replace (i <? Z.of_nat (List.length l)) with false by (symmetry; apply Z.ltb_ge; lia).
    rewrite andb_false_r. reflexivity.
Qed.

Lemma not_cancel (i : Z) : i <> -1 -> negb (i =? -1) = true.
Proof. intros Hi. apply negb_true_iff. apply Z.eqb_neq. exact Hi. Qed.

(** X2. When the menu reports the index of one of its entries, the
    completion handler of each menu command makes exactly one call on the
    analyzer, for the entry at that index, and raises nothing; the find-file
    commands ask for the path of the chosen module name with each extension
    of the class appended, in the order of the class, and open the file the
    analyzer answers. *)
Theorem menu_choice_acts_on_entry :
  forall (m : MerlinView) (c : MerlinWhich.subclass) (entries : list string)
         (index : Z) (entry : string),
    0 <= index ->
    nth_error entries (Z.to_nat index) = Some entry ->
    MerlinLoadPackage.on_done (MerlinLoadPackage.mk m entries) index
    = ([Merlin (FindUse entry)], inr tt) /\
    MerlinRemoveBuildPath.on_done (MerlinRemoveBuildPath.mk m entries) index
    = ([Merlin (RemoveBuildPath entry)], inr tt) /\
    MerlinRemoveSourcePath.on_done (MerlinRemoveSourcePath.mk m entries) index
    = ([Merlin (RemoveSourcePath entry)], inr tt) /\
    MerlinEnableExtension.on_done (MerlinEnableExtension.mk m entries) index
    = ([Merlin (ExtensionEnable [entry])], inr tt) /\
    MerlinDisableExtension.on_done (MerlinDisableExtension.mk m entries) index
    = ([Merlin (ExtensionDisable [entry])], inr tt) /\
    MerlinWhich.on_done (MerlinWhich.mk c m entries) index
    = ([Merlin (WhichPath (map (fun ext => entry +:+ ext) (MerlinWhich.extensions c)));
        Editor (OpenFile
                  (which_path_reply m
                     (map (fun ext => entry +:+ ext) (MerlinWhich.extensions c))) [])],
       inr tt).
Proof.
  intros m c entries index entry Hpos Hnth.
  assert (Hne : index <> -1) by lia.
  pose proof (py_index_nth entries index entry Hpos Hnth) as Hidx.
  unfold MerlinLoadPackage.on_done, MerlinRemoveBuildPath.on_done,
    MerlinRemoveSourcePath.on_done, MerlinEnableExtension.on_done,
    MerlinDisableExtension.on_done, MerlinWhich.on_done.
  cbn [MerlinLoadPackage.modules MerlinRemoveBuildPath.directories
       MerlinRemoveSourcePath.directories MerlinEnableExtension.extensions
       MerlinDisableExtension.extensions MerlinWhich.files MerlinWhich.cls
       MerlinWhich.merlin].
  rewrite (not_cancel index Hne), Hidx.
  repeat split; reflexivity.
Qed.

Lemma menu_choice_acts_on_entry_witness :
  MerlinRemoveBuildPath.on_done
    (MerlinRemoveBuildPath.mk Demo.merlin ["_build"; "lib"]) 1
  = ([Merlin (RemoveBuildPath "lib")], inr tt) /\
  MerlinWhich.on_done
    (MerlinWhich.mk MerlinWhich.MerlinFindMli Demo.merlin ["foo"; "bar"]) 1
  = ([Merlin (WhichPath ["bar.mli"; "bar.ml"; "bar.mfi"; "bar.mf"]);
      Editor (OpenFile "/src/foo.ml" [])], inr tt).
Proof.
  split.
  - exact (proj1 (proj2
      (menu_choice_acts_on_entry Demo.merlin MerlinWhich.Abstract ["_build"; "lib"] 1 "lib"
         ltac:(lia) eq_refl))).
  - exact (proj2 (proj2 (proj2 (proj2 (proj2
      (menu_choice_acts_on_entry Demo.merlin MerlinWhich.MerlinFindMli ["foo"; "bar"] 1 "bar"
         ltac:(lia) eq_refl)))))).
Defined.

(** X3. When the index is not [-1] and lies outside the menu (at or beyond
    its length, or below minus its length; in particular any index but [-1]
    on an empty menu), the completion handlers of the menu commands raise
    [IndexError] before any call is made. *)
Theorem menu_index_outside_raises :
  forall (m : MerlinView) (c : MerlinWhich.subclass) (entries : list string) (index : Z),
    index <> -1 ->
    Z.of_nat (List.length entries) <= index \/ index < - Z.of_nat (List.length entries) ->
    MerlinLoadPackage.on_done (MerlinLoadPackage.mk m entries) index
    = ([], inl IndexError) /\
    MerlinRemoveBuildPath.on_done (MerlinRemoveBuildPath.mk m entries) index
    = ([], inl IndexError) /\
    MerlinRemoveSourcePath.on_done (MerlinRemoveSourcePath.mk m entries) index
    = ([], inl IndexError) /\
    MerlinEnableExtension.on_done (MerlinEnableExtension.mk m entries) index
    = ([], inl IndexError) /\
    MerlinDisableExtension.on_done (MerlinDisableExtension.mk m entries) index
    = ([], inl IndexError) /\
    MerlinWhich.on_done (MerlinWhich.mk c m entries) index
    = ([], inl IndexError).
Proof.
  intros m c entries index Hne Hout.
  pose proof (py_index_outside entries index Hout) as Hidx.
  unfold MerlinLoadPackage.on_done, MerlinRemoveBuildPath.on_done,
    MerlinRemoveSourcePath.on_done, MerlinEnableExtension.on_done,
    MerlinDisableExtension.on_done, MerlinWhich.on_done.
  cbn [MerlinLoadPackage.modules MerlinRemoveBuildPath.directories
       MerlinRemoveSourcePath.directories MerlinEnableExtension.extensions
       MerlinDisableExtension.extensions MerlinWhich.files MerlinWhich.cls
       MerlinWhich.merlin].
  rewrite (not_cancel index Hne), Hidx.
  repeat split; reflexivity.
Qed.

Lemma menu_index_outside_raises_witness :
  MerlinLoadPackage.on_done (MerlinLoadPackage.mk Demo.merlin ["lwt"; "unix"]) 2
  = ([], inl IndexError) /\
  MerlinLoadPackage.on_done (MerlinLoadPackage.mk Demo.merlin []) 0
  = ([], inl IndexError).
Proof.
  split.
  - exact (proj1 (menu_index_outside_raises Demo.merlin MerlinWhich.Abstract
                    ["lwt"; "unix"] 2 ltac:(lia) ltac:(left; simpl; lia))).
  - exact (proj1 (menu_index_outside_raises Demo.merlin MerlinWhich.Abstract
                    [] 0 ltac:(lia) ltac:(left; simpl; lia))).
Defined.

(** X4. The guard of the menu commands is [index != -1]: an index below
    [-1] that is not below minus the length of the menu is read from the
    end, and the handler acts on the entry that many places before the end.
    The guard of the menu of enclosing types is [index > -1]: there every
    negative index does nothing. *)
Theorem menu_negative_index_counts_from_end :
  forall (h : Helpers) (m : MerlinView) (types : MerlinTypeEnclosing.t)
         (entries : list string) (index : Z) (entry : string),
    index < -1 ->
    0 <= index + Z.of_nat (List.length entries) ->
    nth_error entries (Z.to_nat (index + Z.of_nat (List.length entries))) = Some entry ->
    MerlinLoadPackage.on_done (MerlinLoadPackage.mk m entries) index
    = ([Merlin (FindUse entry)], inr tt) /\
    MerlinRemoveBuildPath.on_done (MerlinRemoveBuildPath.mk m entries) index
    = ([Merlin (RemoveBuildPath entry)], inr tt) /\
    MerlinRemoveSourcePath.on_done (MerlinRemoveSourcePath.mk m entries) index
    = ([Merlin (RemoveSourcePath entry)], inr tt) /\
    MerlinEnableExtension.on_done (MerlinEnableExtension.mk m entries) index
    = ([Merlin (ExtensionEnable [entry])], inr tt) /\
    MerlinDisableExtension.on_done (MerlinDisableExtension.mk m entries) index
    = ([Merlin (ExtensionDisable [entry])], inr tt) /\
    MerlinTypeEnclosing.on_done h types index = ([], inr tt).
Proof.
  intros h m types entries index entry Hneg Hlo Hnth.
  assert (Hne : index <> -1) by lia.
  pose proof (py_index_from_end entries index entry ltac:(lia) Hlo Hnth) as Hidx.
  unfold MerlinLoadPackage.on_done, MerlinRemoveBuildPath.on_done,
    MerlinRemoveSourcePath.on_done, MerlinEnableExtension.on_done,
    MerlinDisableExtension.on_done, MerlinTypeEnclosing.on_done.
  cbn [MerlinLoadPackage.modules MerlinRemoveBuildPath.directories
       MerlinRemoveSourcePath.directories MerlinEnableExtension.extensions
       MerlinDisableExtension.extensions].
  rewrite (not_cancel index Hne), Hidx.
  replace (index >? -1) with false by (symmetry; rewrite Z.gtb_ltb; apply Z.ltb_ge; lia).
  repeat split; reflexivity.
Qed.

Lemma menu_negative_index_counts_from_end_witness :
  MerlinRemoveSourcePath.on_done
    (MerlinRemoveSourcePath.mk Demo.merlin ["src"; "lib"; "test"]) (-2)
  = ([Merlin (RemoveSourcePath "lib")], inr tt).
Proof.
  exact (proj1 (proj2 (proj2
    (menu_negative_index_counts_from_end (Demo.helpers Demo.text1) Demo.merlin
       (Demo.panel []) ["src"; "lib"; "test"] (-2) "lib"
       ltac:(lia) ltac:(simpl; lia) eq_refl)))).
Defined.

(** ** The menu and the panel of enclosing types *)

(** X5. Row [n] of the menu of enclosing types shows the text of item [n]
    of the analyzer's answer, and choosing that row replaces the selection
    by the region of the same item: the selection is cleared, then the
    region from the start to the end of the item is added.  An index at or
    beyond the number of items clears the selection and then raises
    [IndexError], adding nothing. *)
Theorem type_menu_row_selects_its_item :
  forall (h : Helpers) (self : MerlinTypeEnclosing.t),
    List.length (MerlinTypeEnclosing._items self)
    = List.length (MerlinTypeEnclosing.enclosing self) /\
    (forall (n : nat) (item : TypeEnclosingItem),
       nth_error (MerlinTypeEnclosing.enclosing self) n = Some item ->
       nth_error (MerlinTypeEnclosing._items self) n
       = Some (MerlinTypeEnclosing._item_format self item) /\
       MerlinTypeEnclosing.on_done h self (Z.of_nat n)
       = ([Editor SelClear;
           Editor (SelAdd (mkRegion
                     (merlin_pos h (MerlinTypeEnclosing.view self) (item_start item))
                     (merlin_pos h (MerlinTypeEnclosing.view self) (item_end item))))],
          inr tt)) /\
    (forall index,
       Z.of_nat (List.length (MerlinTypeEnclosing.enclosing self)) <= index ->
       MerlinTypeEnclosing.on_done h self index = ([Editor SelClear], inl IndexError)).
Proof.
  intros h self. split; [|split].
  - unfold MerlinTypeEnclosing._items. apply length_map.
  - intros n item Hnth. split.
    + unfold MerlinTypeEnclosing._items. rewrite nth_error_map, Hnth. reflexivity.
    + unfold MerlinTypeEnclosing.on_done.
      replace (Z.of_nat n >? -1) with true by (symmetry; apply Z.gtb_lt; lia).
      rewrite (py_index_nth _ (Z.of_nat n) item); [reflexivity|lia|].
      rewrite Nat2Z.id. exact Hnth.
  - intros index Hout. unfold MerlinTypeEnclosing.on_done.
    replace (index >? -1) with true by (symmetry; apply Z.gtb_lt; lia).
    rewrite py_index_outside by (left; exact Hout). reflexivity.
Qed.

Lemma type_menu_row_selects_its_item_witness :
  MerlinTypeEnclosing.on_done (Demo.helpers Demo.text1)
    (Demo.panel [mkItem "int" "no" (mkPosition 1 8) (mkPosition 1 9);
                 mkItem "unit" "no" (mkPosition 1 0) (mkPosition 1 10)]) 1
  = ([Editor SelClear; Editor (SelAdd (mkRegion 0 10))], inr tt) /\
  MerlinTypeEnclosing.on_done (Demo.helpers Demo.text1) (Demo.panel []) 0
  = ([Editor SelClear], inl IndexError).
Proof.
  split.
  - exact (proj2 (proj1 (proj2
      (type_menu_row_selects_its_item (Demo.helpers Demo.text1)
         (Demo.panel [mkItem "int" "no" (mkPosition 1 8) (mkPosition 1 9);
                      mkItem "unit" "no" (mkPosition 1 0) (mkPosition 1 10)])))
      1%nat (mkItem "unit" "no" (mkPosition 1 0) (mkPosition 1 10)) eq_refl)).
  - exact (proj2 (proj2
      (type_menu_row_selects_its_item (Demo.helpers Demo.text1) (Demo.panel [])))
      0 ltac:(simpl; lia)).
Defined.

Lemma item_format_note (self : MerlinTypeEnclosing.t) (item : TypeEnclosingItem) :
  MerlinTypeEnclosing._item_format self item
  = "```" +:+ MerlinTypeEnclosing.language self +:+ newline
    +:+ item_type item +:+ tail_note (item_tail item) +:+ newline +:+ "```".
Proof.
  unfold MerlinTypeEnclosing._item_format, tail_note.
  destruct (String.eqb (item_tail item) "position") eqn:Hp.
  - apply String.eqb_eq in Hp. rewrite Hp. simpl String.eqb. cbv iota.
    rewrite append_assoc. reflexivity.
  - destruct (String.eqb (item_tail item) "call") eqn:Hc.
    + rewrite append_assoc. reflexivity.
    + reflexivity.
Qed.

(** X6. The text of an item is the type, as the analyzer gave it, followed
    by at most one note, between the opening fence with the language of the
    view and the closing fence: the note of a tail position when ['tail'] is
    [position], the note of a tail call when it is [call], and nothing for
    any other value. *)
Theorem item_format_has_one_note :
  forall (self : MerlinTypeEnclosing.t) (item : TypeEnclosingItem),
    MerlinTypeEnclosing._item_format self item
    = "```" +:+ MerlinTypeEnclosing.language self +:+ newline
      +:+ item_type item +:+ tail_note (item_tail item) +:+ newline +:+ "```".
Proof. intros self item. apply item_format_note. Qed.

(** X7. Hovering over the text asks for the types at the hovered point,
    whatever the selection is, and shows the first item of the answer in a
    popup put at that point, except that for the point [0] the popup is put
    at [-1]; when the answer is empty the handler raises [IndexError] after
    the query.  Hovering elsewhere makes no call. *)
Theorem hover_shows_type_at_point :
  forall (h : Helpers) (m : MerlinView) (view : View) (point : Z),
    MerlinTypeOnHover.on_hover h m view point HOVER_TEXT
    = (let line := fst (rowcol view point) + 1 in
       let col := snd (rowcol view point) in
       match type_enclosing_reply m line col with
       | item :: rest =>
           ([Merlin Sync; Merlin (TypeEnclosing line col);
             Editor (ShowPopup
                       ("```" +:+ get_language_from_view h view +:+ newline
                        +:+ item_type item +:+ tail_note (item_tail item)
                        +:+ newline +:+ "```")
                       (hover_location point) 800 600 true)],
            inr tt)
       | [] => ([Merlin Sync; Merlin (TypeEnclosing line col)], inl IndexError)
       end) /\
    MerlinTypeOnHover.on_hover h m view point HOVER_GUTTER = ([], inr tt) /\
    MerlinTypeOnHover.on_hover h m view point HOVER_MARGIN = ([], inr tt).
Proof.
  intros h m view point. split; [|split; reflexivity].
  unfold MerlinTypeOnHover.on_hover, MerlinTypeEnclosing.__init__.
  cbv [bind lift merlin_do editor_do ret]. cbn beta iota zeta.
  destruct (rowcol view point) as [row col]. simpl fst. simpl snd.
  cbn beta iota zeta.
  destruct (type_enclosing_reply m (row + 1) col) as [|item rest] eqn:Hreply.
  - unfold MerlinTypeEnclosing.show_panel, MerlinTypeEnclosing._first. simpl.
    reflexivity.
  - unfold MerlinTypeEnclosing.show_panel, MerlinTypeEnclosing._first.
    cbn [MerlinTypeEnclosing.enclosing]. rewrite py_index_0_cons.
    rewrite item_format_note. reflexivity.
Qed.

Example hover_at_buffer_start :
  MerlinTypeOnHover.on_hover (Demo.helpers Demo.text1) Demo.merlin
    (Demo.view_of Demo.text1 []) 0 HOVER_TEXT
  = ([Merlin Sync; Merlin (TypeEnclosing 1 0);
      Editor (ShowPopup ("```ocaml" +:+ newline +:+ "int" +:+ newline +:+ "```")
                        (-1) 800 600 true)], inr tt).
Proof. reflexivity. Qed.

(** X8. The commands that start from the caret (type of the expression,
    menu of enclosing types, locate under the cursor, locate by name) read
    the first region of the selection after the sync: on a view without
    any selection they sync the buffer and then raise [IndexError], with no
    query made and nothing shown. *)
Theorem commands_need_a_selection :
  forall (h : Helpers) (m : MerlinView) (view : View)
         (cls : MerlinLocateMli.subclass) (ncls : MerlinLocateNameMli.subclass)
         (name : string),
    sel view = [] ->
    MerlinTypeCommand.run h m view = ([Merlin Sync], inl IndexError) /\
    MerlinTypeMenu.run h m view = ([Merlin Sync], inl IndexError) /\
    MerlinLocateMli.run h cls m view = ([Merlin Sync], inl IndexError) /\
    MerlinLocateNameMli.on_done h ncls m view name = ([Merlin Sync], inl IndexError).
Proof.
  intros h m view cls ncls name Hsel.
  unfold MerlinTypeCommand.run, MerlinTypeMenu.run, MerlinTypeEnclosing.__init__,
    MerlinLocateMli.run, MerlinLocateNameMli.on_done.
  rewrite Hsel, py_index_nil. repeat split; reflexivity.
Qed.

Lemma commands_need_a_selection_witness :
  MerlinLocateMli.run (Demo.helpers Demo.text1) MerlinLocateMli.Base Demo.merlin
    (Demo.view_of Demo.text1 [])
  = ([Merlin Sync], inl IndexError).
Proof.
  exact (proj1 (proj2 (proj2
    (commands_need_a_selection (Demo.helpers Demo.text1) Demo.merlin
       (Demo.view_of Demo.text1 []) MerlinLocateMli.Base MerlinLocateNameMli.Base
       "x" eq_refl)))).
Defined.

Lemma locate_result_one_action h result window :
  exists action, locate_actions (trace (merlin_locate_result h result window)) = [action].
Proof. destruct result as [pos [file|]|msg]; eexists; reflexivity. Qed.

(** X9. A locate command, under the cursor or by name, on a view with a
    selection: syncs, asks one locate query for the caret, and then does
    what [merlin_locate_result] does with the analyzer's answer to that very
    query, hence exactly one of opening a file, moving the caret and showing
    a message; it raises nothing. *)
Theorem locate_command_shows_its_answer :
  forall (h : Helpers) (m : MerlinView) (view : View) (r : Region) (rs : list Region)
         (cls : MerlinLocateMli.subclass) (ncls : MerlinLocateNameMli.subclass)
         (name : string),
    sel view = r :: rs ->
    let line := fst (rowcol view (region_begin r)) + 1 in
    let col := snd (rowcol view (region_begin r)) in
    MerlinLocateMli.run h cls m view
    = (Merlin Sync :: Merlin (Locate line col (Some (MerlinLocateMli.kind cls)) None)
         :: trace (merlin_locate_result h
                     (locate_reply m line col (Some (MerlinLocateMli.kind cls)) None) view),
       inr tt) /\
    MerlinLocateNameMli.on_done h ncls m view name
    = (Merlin Sync :: Merlin (Locate line col None (Some name))
         :: trace (merlin_locate_result h (locate_reply m line col None (Some name)) view),
       inr tt) /\
    (exists action, locate_actions (trace (MerlinLocateMli.run h cls m view)) = [action]) /\
    (exists action,
       locate_actions (trace (MerlinLocateNameMli.on_done h ncls m view name)) = [action]).
Proof.
  intros h m view r rs cls ncls name Hsel line col.
  assert (Hrun : MerlinLocateMli.run h cls m view
    = (Merlin Sync :: Merlin (Locate line col (Some (MerlinLocateMli.kind cls)) None)
         :: trace (merlin_locate_result h
                     (locate_reply m line col (Some (MerlinLocateMli.kind cls)) None) view),
       inr tt)).
  { unfold MerlinLocateMli.run, line, col. rewrite Hsel, py_index_0_cons.
    cbv [bind lift merlin_do]. cbn beta iota zeta.
    destruct (rowcol view (region_begin r)) as [row c]. simpl fst. simpl snd.
    destruct (locate_reply m (row + 1) c (Some (MerlinLocateMli.kind cls)) None)
      as [pos [file|]|msg]; reflexivity. }
  assert (Hname : MerlinLocateNameMli.on_done h ncls m view name
    = (Merlin Sync :: Merlin (Locate line col None (Some name))
         :: trace (merlin_locate_result h (locate_reply m line col None (Some name)) view),
       inr tt)).
  { unfold MerlinLocateNameMli.on_done, line, col. rewrite Hsel, py_index_0_cons.
    cbv [bind lift merlin_do]. cbn beta iota zeta.
    destruct (rowcol view (region_begin r)) as [row c]. simpl fst. simpl snd.
    destruct (locate_reply m (row + 1) c None (Some name)) as [pos [file|]|msg];
      reflexivity. }
  split; [exact Hrun|split; [exact Hname|split]].
  - rewrite Hrun. unfold trace at 1. simpl fst.
    change (locate_actions (?a :: ?b :: ?t)) with (locate_actions t).
    apply locate_result_one_action.
  - rewrite Hname. unfold trace at 1. simpl fst.
    change (locate_actions (?a :: ?b :: ?t)) with (locate_actions t).
    apply locate_result_one_action.
Qed.

Lemma locate_command_shows_its_answer_witness :
  MerlinLocateNameMli.on_done (Demo.helpers Demo.text1) MerlinLocateNameMli.Base
    Demo.merlin (Demo.view_of Demo.text1 [mkRegion 4 4]) "List.map"
  = ([Merlin Sync; Merlin (Locate 1 4 None (Some "List.map"));
      Editor (OpenFile "list.ml:12:5" [ENCODED_POSITION; TRANSIENT])], inr tt).
Proof.
  exact (proj1 (proj2
    (locate_command_shows_its_answer (Demo.helpers Demo.text1) Demo.merlin
       (Demo.view_of Demo.text1 [mkRegion 4 4]) (mkRegion 4 4) []
       MerlinLocateMli.Base MerlinLocateNameMli.Base "List.map" eq_refl))).
Defined.

(** X10. The menu command shows one row for each item of the analyzer's
    answer, in a monospace font, and keeps the answer in the object that
    will handle the choice; unlike the panel, it raises nothing when the
    answer is empty and shows an empty menu. *)
Theorem type_menu_lists_the_answer :
  forall (h : Helpers) (m : MerlinView) (view : View) (r : Region) (rs : list Region),
    sel view = r :: rs ->
    let line := fst (rowcol view (region_begin r)) + 1 in
    let col := snd (rowcol view (region_begin r)) in
    let self := MerlinTypeEnclosing.mk (type_enclosing_reply m line col) view
                  (get_language_from_view h view) in
    MerlinTypeMenu.run h m view
    = ([Merlin Sync; Merlin (TypeEnclosing line col);
        Editor (ShowPopupMenu (map (MerlinTypeEnclosing._item_format self)
                                   (type_enclosing_reply m line col))
                              [MONOSPACE_FONT])],
       inr self).
Proof.
  intros h m view r rs Hsel line col self.
  unfold MerlinTypeMenu.run, MerlinTypeEnclosing.__init__, self, line, col.
  rewrite Hsel, py_index_0_cons.
  cbv [bind lift merlin_do editor_do ret MerlinTypeEnclosing.show_menu].
  cbn beta iota zeta.
  destruct (rowcol view (region_begin r)) as [row c]. reflexivity.
Qed.

Lemma type_menu_lists_the_answer_witness :
  trace (MerlinTypeMenu.run (Demo.helpers Demo.text1) Demo.silent
           (Demo.view_of Demo.text1 [mkRegion 8 8]))
  = [Merlin Sync; Merlin (TypeEnclosing 1 8); Editor (ShowPopupMenu [] [MONOSPACE_FONT])].
Proof.
  exact (f_equal fst
    (type_menu_lists_the_answer (Demo.helpers Demo.text1) Demo.silent
       (Demo.view_of Demo.text1 [mkRegion 8 8]) (mkRegion 8 8) [] eq_refl)).
Defined.

(** ** The completion listener over several events *)



Lemma after_event_pending h m self e :
  Autocomplete.cplns_ready self = Some false ->
  after_event h m self e = self.
Proof.
  intros Hready. unfold after_event.
  destruct (ev_locations e) as [|l ls] eqn:Hloc.
  - unfold Autocomplete.on_query_completions. rewrite py_index_nil. reflexivity.
  - rewrite (default_when_pending h self m _ _ l ls Hready). reflexivity.
Qed.








(** X13. A listener that is waiting ([cplns_ready] is [False]) stays so:
    whatever events come, it issues no completion query any more, returns
    the default value to each of them and keeps its attributes. *)
Theorem waiting_listener_never_queries :
  forall (h : Helpers) (m : MerlinView) (self : Autocomplete.t)
         (events : list completion_event) (e : completion_event) (l : Z) (ls : list Z),
    Autocomplete.cplns_ready self = Some false ->
    ev_locations e = l :: ls ->
    after_events h m self events = self /\
    Autocomplete.on_query_completions h (after_events h m self events) m
      (ev_view e) (ev_prefix e) (ev_locations e)
    = ([Merlin Sync], inr (self, Autocomplete.default_return)).
Proof.
  intros h m self events e l ls Hready Hloc.
  assert (Hsame : after_events h m self events = self).
  { unfold after_events. induction events as [|e' events IH]; [reflexivity|].
    simpl. rewrite (after_event_pending h m self e' Hready). exact IH. }
  split; [exact Hsame|].
  rewrite Hsame, Hloc. apply default_when_pending. exact Hready.
Qed.

Lemma waiting_listener_never_queries_witness :
  Autocomplete.on_query_completions (Demo.helpers Demo.text1)
    (after_events (Demo.helpers Demo.text1) Demo.merlin DemoPanel.pending
       [DemoPanel.ev1; DemoPanel.ev2]) Demo.merlin
    (ev_view DemoPanel.ev1) (ev_prefix DemoPanel.ev1) (ev_locations DemoPanel.ev1)
  = ([Merlin Sync], inr (DemoPanel.pending, Autocomplete.default_return)).
Proof.
  exact (proj2 (waiting_listener_never_queries (Demo.helpers Demo.text1) Demo.merlin
                  DemoPanel.pending [DemoPanel.ev1; DemoPanel.ev2] DemoPanel.ev1 10 []
                  eq_refl eq_refl)).
Defined.

(** X14. When the handler returns a plain list of completions, the list is
    not empty, it is the list the listener had stored, the listener was
    ready, the call has made no completion query, and the listener is left
    idle with nothing stored. *)
Theorem returned_list_is_the_stored_one :
  forall (h : Helpers) (self self' : Autocomplete.t) (m : MerlinView) (view : View)
         (prefix : string) (locations : list Z) (l : list (string * string)),
    outcome (Autocomplete.on_query_completions h self m view prefix locations)
    = inr (self', Autocomplete.Completions l) ->
    l <> [] /\
    l = Autocomplete.completions self /\
    Autocomplete.cplns_ready self = Some true /\
    self' = Autocomplete.mk [] None (Autocomplete.cplns self) /\
    trace (Autocomplete.on_query_completions h self m view prefix locations)
    = [Merlin Sync].
Proof.
  intros h self self' m view prefix locations l Hout.
  destruct locations as [|l0 ls].
  - unfold Autocomplete.on_query_completions in Hout. rewrite py_index_nil in Hout.
    discriminate Hout.
  - destruct (Autocomplete.cplns_ready self) as [[|]|] eqn:Hready.
    + rewrite (answer_when_ready h self m view prefix l0 ls Hready) in *.
      destruct (Autocomplete.completions self) as [|c cs] eqn:Hc; simpl in Hout.
      * inversion Hout.
      * inversion Hout. subst. repeat split; try reflexivity. discriminate.
    + rewrite (default_when_pending h self m view prefix l0 ls Hready) in Hout.
      inversion Hout.
    + rewrite (query_when_idle h self m view prefix l0 ls Hready) in Hout.
      cbn zeta in Hout.
      destruct (Autocomplete.format_entries _); inversion Hout.
Qed.

Lemma returned_list_is_the_stored_one_witness :
  [("List" +:+ tab +:+ "module", "List")] <> [] /\
  Autocomplete.cplns_ready Demo.after_first = Some true.
Proof.
  pose proof (returned_list_is_the_stored_one (Demo.helpers Demo.text2) Demo.after_first
                (Autocomplete.mk [] None [("List" +:+ tab +:+ "module", "List")])
                Demo.merlin (Demo.view_of Demo.text2 [mkRegion 10 10]) "Ma" [10]
                [("List" +:+ tab +:+ "module", "List")] eq_refl) as [Hne [_ [Hready _]]].
  split; [exact Hne|exact Hready].
Defined.

(** ** Diagnostics *)

Lemma contributions_texts h view (errors : list Diagnostic) :
  map (fun c => snd (snd c)) (contributions h view errors)
  = map (fun e => clean_whitespace h (diag_message e)) (filter has_span errors).
Proof.
  induction errors as [|e errors IH]; [reflexivity|].
  unfold contributions in *. cbn [flat_map filter].
  unfold contribution at 1. unfold has_span at 1.
  destruct (diag_start e), (diag_end e); simpl; rewrite IH; reflexivity.
Qed.

Lemma contributions_length h view (errors : list Diagnostic) :
  List.length (contributions h view errors) = List.length (filter has_span errors).
Proof.
  rewrite <- (length_map (fun c => snd (snd c))), contributions_texts, length_map.
  reflexivity.
Qed.

(** X15. After [show_errors] the listener stores as many messages as it
    has underlined regions, one for each diagnostic of the report that has
    a start and an end and never more than the report has entries; the
    stored texts are the messages of these diagnostics passed through
    [clean_whitespace], in the order of the report.  When no diagnostic has
    both positions the stored list is empty and the underlines are replaced
    by none. *)
Theorem show_errors_stores_cleaned_messages :
  forall (h : Helpers) (self : MerlinBuffer.t) (m : MerlinView) (view : View),
    exists underlines self',
      MerlinBuffer.show_errors h self m view
      = ([Editor (EraseRegions "ocaml-underlines-errors");
          Merlin ReportErrors;
          Editor (AddRegions "ocaml-underlines-errors" underlines "invalid"
                    (gutter_icon h)
                    [PERSISTENT; DRAW_SOLID_UNDERLINE; DRAW_NO_FILL; DRAW_NO_OUTLINE])],
         inr self') /\
      List.length underlines = List.length (filter has_span (report_errors_reply m)) /\
      List.length (MerlinBuffer.error_messages self') = List.length underlines /\
      (List.length underlines <= List.length (report_errors_reply m))%nat /\
      map snd (MerlinBuffer.error_messages self')
      = map (fun e => clean_whitespace h (diag_message e))
            (filter has_span (report_errors_reply m)) /\
      (filter has_span (report_errors_reply m) = [] ->
       underlines = [] /\ MerlinBuffer.error_messages self' = []).
Proof.
  intros h self m view.
  exists (map fst (contributions h view (report_errors_reply m))).
  exists (MerlinBuffer.mk (map snd (contributions h view (report_errors_reply m)))).
  split; [|split; [|split; [|split; [|split]]]].
  - unfold MerlinBuffer.show_errors. rewrite show_errors_loop. reflexivity.
  - rewrite length_map. apply contributions_length.
  - cbn [MerlinBuffer.error_messages]. rewrite !length_map. reflexivity.
  - rewrite length_map, contributions_length. apply filter_length_le.
  - cbn [MerlinBuffer.error_messages]. rewrite map_map. apply contributions_texts.
  - intros Hnone. cbn [MerlinBuffer.error_messages].
    assert (Hc : contributions h view (report_errors_reply m) = []).
    { apply length_zero_iff_nil. rewrite contributions_length, Hnone. reflexivity. }
    rewrite Hc. split; reflexivity.
Qed.

Lemma show_errors_stores_cleaned_messages_witness :
  exists underlines self',
    MerlinBuffer.show_errors (Demo.helpers Demo.text1) DemoPanel.stored Demo.silent
      (Demo.view_of Demo.text1 [])
    = ([Editor (EraseRegions "ocaml-underlines-errors");
        Merlin ReportErrors;
        Editor (AddRegions "ocaml-underlines-errors" underlines "invalid"
                  "Cache/Merlin/gutter-icon.png"
                  [PERSISTENT; DRAW_SOLID_UNDERLINE; DRAW_NO_FILL; DRAW_NO_OUTLINE])],
       inr self') /\
    underlines = [] /\ MerlinBuffer.error_messages self' = [].
Proof.
  destruct (show_errors_stores_cleaned_messages (Demo.helpers Demo.text1) DemoPanel.stored
              Demo.silent (Demo.view_of Demo.text1 []))
    as [underlines [self' [Heq [_ [_ [_ [_ Hnone]]]]]]].
  exists underlines, self'. split; [exact Heq|exact (Hnone eq_refl)].
Defined.

(** ** The error panel *)

Lemma is_visible_no_window ed self :
  MerlinErrorPanel.is_visible ed self None
  = match MerlinErrorPanel.view self with
    | Some v => match view_window ed v with Some _ => true | None => false end
    | None => false
    end.
Proof.
  unfold MerlinErrorPanel.is_visible. rewrite andb_false_r. reflexivity.
Qed.

Lemma is_visible_has_view ed self window :
  MerlinErrorPanel.is_visible ed self window = true ->
  exists v, MerlinErrorPanel.view self = Some v.
Proof.
  unfold MerlinErrorPanel.is_visible.
  destruct (MerlinErrorPanel.view self) as [v|]; [intros _; exists v; reflexivity|].
  simpl. discriminate.
Qed.

Lemma flush_with_view v d :
  MerlinErrorPanel.flush (MerlinErrorPanel.mk (Some v) d) = (flush_block v d, inr tt).
Proof. reflexivity. Qed.

Lemma set_data_calls (ed : Sublime) (self : MerlinErrorPanel.t) (data : string) :
  MerlinErrorPanel.set_data ed self data
  = (match MerlinErrorPanel.view self with
     | Some v => match view_window ed v with
                 | Some _ => flush_block v data
                 | None => []
                 end
     | None => []
     end,
     inr (MerlinErrorPanel.mk (MerlinErrorPanel.view self) data)).
Proof.
  unfold MerlinErrorPanel.set_data.
  rewrite is_visible_no_window. cbn [MerlinErrorPanel.view].
  destruct (MerlinErrorPanel.view self) as [v|]; [|reflexivity].
  destruct (view_window ed v); reflexivity.
Qed.

(** X16. [set_data] never raises: it stores the text, and puts it into the
    panel view exactly when the panel has a view and that view is in a
    window; on a panel that was never opened, or whose view has left its
    window, it makes no call. *)
Theorem set_data_flushes_when_visible :
  forall (ed : Sublime) (self : MerlinErrorPanel.t) (data : string),
    MerlinErrorPanel.set_data ed self data
    = (match MerlinErrorPanel.view self with
       | Some v => match view_window ed v with
                   | Some _ => flush_block v data
                   | None => []
                   end
       | None => []
       end,
       inr (MerlinErrorPanel.mk (MerlinErrorPanel.view self) data)).
Proof. intros ed self data. apply set_data_calls. Qed.

Lemma open_calls (ed : Sublime) (self : MerlinErrorPanel.t) (window : option Z) :
  let w := match window with Some w => w | None => active_window ed end in
  exists v creation,
    MerlinErrorPanel.open ed self window
    = (creation ++ flush_block v (MerlinErrorPanel.data self)
         ++ [ShowPanel w "output.merlin"],
       inr (MerlinErrorPanel.mk (Some v) (MerlinErrorPanel.data self))) /\
    (if MerlinErrorPanel.is_visible ed self (Some w)
     then MerlinErrorPanel.view self = Some v /\ creation = []
     else v = get_output_panel ed w "merlin" /\ creation = new_panel_block w v).
Proof.
  intros w.
  unfold MerlinErrorPanel.open. fold w.
  destruct (MerlinErrorPanel.is_visible ed self (Some w)) eqn:Hvis.
  - destruct (is_visible_has_view ed self (Some w) Hvis) as [v Hv].
    exists v, []. split; [|split; [exact Hv|reflexivity]].
    destruct self as [sv sd]. simpl in Hv. subst sv. reflexivity.
  - exists (get_output_panel ed w "merlin"), (new_panel_block w (get_output_panel ed w "merlin")).
    split; [reflexivity|split; reflexivity].
Qed.

(** X17. [open] never raises.  It works on the given window, or on the
    active one when none is given; it keeps the panel view when that view
    is visible in this window and takes a new output panel (with its font
    size and syntax) otherwise; it then puts the stored text into the view
    and shows the panel. *)
Theorem open_flushes_and_shows :
  forall (ed : Sublime) (self : MerlinErrorPanel.t) (window : option Z),
    let w := match window with Some w => w | None => active_window ed end in
    exists v creation,
      MerlinErrorPanel.open ed self window
      = (creation ++ flush_block v (MerlinErrorPanel.data self)
           ++ [ShowPanel w "output.merlin"],
         inr (MerlinErrorPanel.mk (Some v) (MerlinErrorPanel.data self))) /\
      (if MerlinErrorPanel.is_visible ed self (Some w)
       then MerlinErrorPanel.view self = Some v /\ creation = []
       else v = get_output_panel ed w "merlin" /\ creation = new_panel_block w v).
Proof. intros ed self window. apply open_calls. Qed.

(** X18. Whatever the state of the panel, a text given by [set_data] is
    the text that the next [open] writes into the view it shows; on a panel
    that was never opened, [set_data] makes no call and [open] takes a new
    output panel for it. *)
Theorem text_set_before_open_is_shown :
  forall (ed : Sublime) (self : MerlinErrorPanel.t) (data : string) (window : option Z),
    let w := match window with Some w => w | None => active_window ed end in
    let kept := MerlinErrorPanel.mk (MerlinErrorPanel.view self) data in
    snd (MerlinErrorPanel.set_data ed self data) = inr kept /\
    (exists v creation,
       MerlinErrorPanel.open ed kept window
       = (creation ++ flush_block v data ++ [ShowPanel w "output.merlin"],
          inr (MerlinErrorPanel.mk (Some v) data))) /\
    MerlinErrorPanel.set_data ed MerlinErrorPanel.__init__ data
    = ([], inr (MerlinErrorPanel.mk None data)) /\
    MerlinErrorPanel.open ed (MerlinErrorPanel.mk None data) window
    = (new_panel_block w (get_output_panel ed w "merlin")
         ++ flush_block (get_output_panel ed w "merlin") data
         ++ [ShowPanel w "output.merlin"],
       inr (MerlinErrorPanel.mk (Some (get_output_panel ed w "merlin")) data)).
Proof.
  intros ed self data window w kept.
  split; [rewrite set_data_calls; reflexivity|].
  split; [|split; reflexivity].
  destruct (open_calls ed kept window) as [v [creation [Hopen _]]].
  exists v, creation. exact Hopen.
Qed.

Lemma open_then_set_data ed panel message :
  exists v t,
    pbind (MerlinErrorPanel.open ed panel None)
          (fun p => MerlinErrorPanel.set_data ed p message)
    = (t ++ match view_window ed v with
            | Some _ => flush_block v message
            | None => []
            end,
       inr (MerlinErrorPanel.mk (Some v) message)) /\
    MerlinErrorPanel.open ed panel None
    = (t, inr (MerlinErrorPanel.mk (Some v) (MerlinErrorPanel.data panel))).
Proof.
  destruct (open_calls ed panel None) as [v [creation [Hopen _]]].
  cbv zeta in Hopen.
  exists v.
  exists (creation ++ flush_block v (MerlinErrorPanel.data panel)
            ++ [ShowPanel (active_window ed) "output.merlin"]).
  split; [|exact Hopen].
  rewrite Hopen. unfold pbind. rewrite set_data_calls.
  reflexivity.
Qed.

Lemma display_loop_skips ed view caret (before : list (Region * string)) :
  Forall (fun rm => intersects ed (fst rm) caret = false) before ->
  forall rest panel,
    MerlinBufferPanel.display_loop ed view caret (before ++ rest) panel
    = (repeat (HidePanel (active_window ed) "output.merlin") (List.length before)
         ++ fst (MerlinBufferPanel.display_loop ed view caret rest panel),
       snd (MerlinBufferPanel.display_loop ed view caret rest panel)).
Proof.
  induction 1 as [|[region text] before Hno _ IH]; intros rest panel.
  - simpl. destruct (MerlinBufferPanel.display_loop ed view caret rest panel). reflexivity.
  - simpl in Hno. cbn [app MerlinBufferPanel.display_loop List.length repeat].
    rewrite Hno. unfold MerlinErrorPanel.close, pbind, panel_do, pret.
    cbn beta iota. rewrite IH. reflexivity.
Qed.

(** X19. When no stored message meets the caret, [display_in_error_panel]
    hides the panel once for each stored message and leaves the panel
    object as it is; with no stored message at all it makes no call, so a
    panel that is open stays open. *)
Theorem display_hides_when_nothing_at_caret :
  forall (ed : Sublime) (self : MerlinBuffer.t) (panel : MerlinErrorPanel.t)
         (view : View) (caret : Region) (others : list Region),
    sel view = caret :: others ->
    Forall (fun rm => intersects ed (fst rm) caret = false)
           (MerlinBuffer.error_messages self) ->
    MerlinBufferPanel.display_in_error_panel ed self panel view
    = (repeat (HidePanel (active_window ed) "output.merlin")
              (List.length (MerlinBuffer.error_messages self)),
       inr panel).
Proof.
  intros ed self panel view caret others Hsel Hnone.
  unfold MerlinBufferPanel.display_in_error_panel.
  rewrite Hsel, py_index_0_cons.
  rewrite <- (app_nil_r (MerlinBuffer.error_messages self)) at 1.
  rewrite (display_loop_skips ed view caret _ Hnone [] panel).
  simpl. rewrite app_nil_r. reflexivity.
Qed.

Lemma display_hides_when_nothing_at_caret_witness :
  MerlinBufferPanel.display_in_error_panel (DemoPanel.editor [7]) DemoPanel.stored
    (MerlinErrorPanel.mk (Some 7) "old") (Demo.view_of Demo.text1 [mkRegion 12 12])
  = ([HidePanel 1 "output.merlin"; HidePanel 1 "output.merlin"],
     inr (MerlinErrorPanel.mk (Some 7) "old")).
Proof.
  assert (Hnone : Forall (fun rm => intersects (DemoPanel.editor [7]) (fst rm)
                                      (mkRegion 12 12) = false)
                         (MerlinBuffer.error_messages DemoPanel.stored))
    by (repeat constructor).
  exact (display_hides_when_nothing_at_caret (DemoPanel.editor [7]) DemoPanel.stored
           (MerlinErrorPanel.mk (Some 7) "old") (Demo.view_of Demo.text1 [mkRegion 12 12])
           (mkRegion 12 12) [] eq_refl Hnone).
Defined.

(** X20. When some stored message meets the caret,
    [display_in_error_panel] hides the panel once for each message stored
    before the first one that does, then opens the panel and gives it the
    text of that first message, prefixed by the row of the start of its
    region, as [rowcol] counts it, and a colon; later messages are not
    looked at.  It raises nothing, and the panel object ends with that
    text. *)
Theorem display_shows_first_message_at_caret :
  forall (ed : Sublime) (self : MerlinBuffer.t) (panel : MerlinErrorPanel.t)
         (view : View) (caret : Region) (others : list Region)
         (before after : list (Region * string)) (region : Region) (text : string),
    sel view = caret :: others ->
    MerlinBuffer.error_messages self = before ++ (region, text) :: after ->
    Forall (fun rm => intersects ed (fst rm) caret = false) before ->
    intersects ed region caret = true ->
    let message := format_d (fst (rowcol view (region_begin region))) +:+ ": " +:+ text in
    exists v opened,
      MerlinErrorPanel.open ed panel None
      = (opened, inr (MerlinErrorPanel.mk (Some v) (MerlinErrorPanel.data panel))) /\
      MerlinBufferPanel.display_in_error_panel ed self panel view
      = (repeat (HidePanel (active_window ed) "output.merlin") (List.length before)
           ++ opened
           ++ fst (MerlinErrorPanel.set_data ed
                     (MerlinErrorPanel.mk (Some v) (MerlinErrorPanel.data panel)) message),
         inr (MerlinErrorPanel.mk (Some v) message)).
Proof.
  intros ed self panel view caret others before after region text
         Hsel Hmsgs Hbefore Hhit message.
  destruct (open_then_set_data ed panel message) as [v [opened [Hboth Hopen]]].
  exists v, opened. split; [exact Hopen|].
  unfold MerlinBufferPanel.display_in_error_panel.
  rewrite Hsel, py_index_0_cons, Hmsgs.
  rewrite (display_loop_skips ed view caret before Hbefore).
  cbn [MerlinBufferPanel.display_loop]. rewrite Hhit.
  unfold MerlinBufferPanel.get_lineno. fold message.
  rewrite Hboth. rewrite set_data_calls.
  cbn [fst snd MerlinErrorPanel.view]. reflexivity.
Qed.

Lemma display_shows_first_message_at_caret_witness :
  MerlinBufferPanel.display_in_error_panel (DemoPanel.editor [7]) DemoPanel.stored
    MerlinErrorPanel.__init__ (Demo.view_of Demo.text1 [mkRegion 8 9])
  = (HidePanel 1 "output.merlin"
       :: new_panel_block 1 7 ++ flush_block 7 "" ++ [ShowPanel 1 "output.merlin"]
       ++ flush_block 7 "0: type error",
     inr (MerlinErrorPanel.mk (Some 7) "0: type error")).
Proof.
  assert (Hbefore : Forall (fun rm => intersects (DemoPanel.editor [7]) (fst rm)
                                        (mkRegion 8 9) = false)
                           [(mkRegion 20 30, "unused variable")])
    by (repeat constructor).
  destruct (display_shows_first_message_at_caret (DemoPanel.editor [7]) DemoPanel.stored
              MerlinErrorPanel.__init__ (Demo.view_of Demo.text1 [mkRegion 8 9])
              (mkRegion 8 9) [] [(mkRegion 20 30, "unused variable")] []
              (mkRegion (-1) 10) "type error" eq_refl eq_refl Hbefore eq_refl)
    as [v [opened [Hopen Hdisplay]]].
  rewrite Hdisplay. inversion Hopen. subst. reflexivity.
Defined.

(** X21. The message found at the caret reaches the panel view through the
    flush of [set_data], after [open] has put the previous text into the
    view: when the panel view is in a window once opened, the calls end with
    the block that writes the new message; when it is not, the new message
    is stored but the view is left with the previous text. *)
Theorem display_writes_message_last :
  forall (ed : Sublime) (self : MerlinBuffer.t) (panel : MerlinErrorPanel.t)
         (view : View) (caret : Region) (others : list Region)
         (after : list (Region * string)) (region : Region) (text : string),
    sel view = caret :: others ->
    MerlinBuffer.error_messages self = (region, text) :: after ->
    intersects ed region caret = true ->
    let message := format_d (fst (rowcol view (region_begin region))) +:+ ": " +:+ text in
    exists v creation,
      MerlinBufferPanel.display_in_error_panel ed self panel view
      = (creation ++ flush_block v (MerlinErrorPanel.data panel)
           ++ [ShowPanel (active_window ed) "output.merlin"]
           ++ match view_window ed v with
              | Some _ => flush_block v message
              | None => []
              end,
         inr (MerlinErrorPanel.mk (Some v) message)).
Proof.
  intros ed self panel view caret others after region text Hsel Hmsgs Hhit message.
  destruct (open_calls ed panel None) as [v [creation [Hopen _]]].
  cbv zeta in Hopen.
  exists v, creation.
  unfold MerlinBufferPanel.display_in_error_panel.
  rewrite Hsel, py_index_0_cons, Hmsgs.
  cbn [MerlinBufferPanel.display_loop]. rewrite Hhit.
  unfold MerlinBufferPanel.get_lineno. fold message.
  rewrite Hopen. unfold pbind. rewrite set_data_calls.
  cbn [MerlinErrorPanel.view]. rewrite <- !app_assoc. reflexivity.
Qed.

Lemma display_writes_message_last_witness :
  exists v creation,
    MerlinBufferPanel.display_in_error_panel (DemoPanel.editor [])
      (MerlinBuffer.mk [(mkRegion (-1) 10, "type error")])
      (MerlinErrorPanel.mk None "old") (Demo.view_of Demo.text1 [mkRegion 8 9])
    = (creation ++ flush_block v "old" ++ [ShowPanel 1 "output.merlin"]
         ++ match view_window (DemoPanel.editor []) v with
            | Some _ => flush_block v "0: type error"
            | None => []
            end,
       inr (MerlinErrorPanel.mk (Some v) "0: type error")).
Proof.
  exact (display_writes_message_last (DemoPanel.editor [])
           (MerlinBuffer.mk [(mkRegion (-1) 10, "type error")])
           (MerlinErrorPanel.mk None "old") (Demo.view_of Demo.text1 [mkRegion 8 9])
           (mkRegion 8 9) [] [] (mkRegion (-1) 10) "type error"
           eq_refl eq_refl eq_refl).
Defined.

Example display_into_detached_view :
  MerlinBufferPanel.display_in_error_panel (DemoPanel.editor [])
    (MerlinBuffer.mk [(mkRegion (-1) 10, "type error")])
    (MerlinErrorPanel.mk None "old") (Demo.view_of Demo.text1 [mkRegion 8 9])
  = (new_panel_block 1 7 ++ flush_block 7 "old" ++ [ShowPanel 1 "output.merlin"],
     inr (MerlinErrorPanel.mk (Some 7) "0: type error")).
Proof. reflexivity. Qed.

(** X22. Saving syncs the buffer, erases the underlines, asks for the
    errors, underlines the diagnostics that have both positions, and then
    looks for a message at the caret among the messages of this new report,
    not among those stored before.  In particular, when no diagnostic of the
    new report has both positions, the panel receives no call at all. *)
Theorem save_displays_the_new_report :
  forall (h : Helpers) (ed : Sublime) (self : MerlinBuffer.t)
         (panel : MerlinErrorPanel.t) (m : MerlinView) (view : View),
    let self' := MerlinBuffer.mk (map snd (contributions h view (report_errors_reply m))) in
    MerlinBufferPanel.on_post_save h ed self panel m view
    = ([Merlin Sync;
        Editor (EraseRegions "ocaml-underlines-errors");
        Merlin ReportErrors;
        Editor (AddRegions "ocaml-underlines-errors"
                  (map fst (contributions h view (report_errors_reply m)))
                  "invalid" (gutter_icon h)
                  [PERSISTENT; DRAW_SOLID_UNDERLINE; DRAW_NO_FILL; DRAW_NO_OUTLINE])],
       (self', MerlinBufferPanel.display_in_error_panel ed self' panel view)) /\
    (forall caret others,
       sel view = caret :: others ->
       filter has_span (report_errors_reply m) = [] ->
       snd (snd (MerlinBufferPanel.on_post_save h ed self panel m view))
       = ([], inr panel)).
Proof.
  intros h ed self panel m view self'.
  assert (Heq : MerlinBufferPanel.on_post_save h ed self panel m view
    = ([Merlin Sync;
        Editor (EraseRegions "ocaml-underlines-errors");
        Merlin ReportErrors;
        Editor (AddRegions "ocaml-underlines-errors"
                  (map fst (contributions h view (report_errors_reply m)))
                  "invalid" (gutter_icon h)
                  [PERSISTENT; DRAW_SOLID_UNDERLINE; DRAW_NO_FILL; DRAW_NO_OUTLINE])],
       (self', MerlinBufferPanel.display_in_error_panel ed self' panel view))).
  { unfold MerlinBufferPanel.on_post_save, MerlinBuffer.show_errors.
    rewrite show_errors_loop. reflexivity. }
  split; [exact Heq|].
  intros caret others Hsel Hnone. rewrite Heq. cbn [snd].
  assert (Hc : contributions h view (report_errors_reply m) = []).
  { apply length_zero_iff_nil. rewrite contributions_length, Hnone. reflexivity. }
  unfold self'. rewrite Hc.
  unfold MerlinBufferPanel.display_in_error_panel. rewrite Hsel, py_index_0_cons.
  reflexivity.
Qed.

Lemma save_displays_the_new_report_witness :
  snd (snd (MerlinBufferPanel.on_post_save (Demo.helpers Demo.text1)
              (DemoPanel.editor [7]) DemoPanel.stored
              (MerlinErrorPanel.mk (Some 7) "0: type error") Demo.silent
              (Demo.view_of Demo.text1 [mkRegion 8 9])))
  = ([], inr (MerlinErrorPanel.mk (Some 7) "0: type error")).
Proof.
  exact (proj2 (save_displays_the_new_report (Demo.helpers Demo.text1)
                  (DemoPanel.editor [7]) DemoPanel.stored
                  (MerlinErrorPanel.mk (Some 7) "0: type error") Demo.silent
                  (Demo.view_of Demo.text1 [mkRegion 8 9]))
               (mkRegion 8 9) [] eq_refl eq_refl).
Defined.
